(** * variance-example.ts: the generic validate / process / transform pipeline

    A shallow embedding of [BaseDataProcessor], [UserProcessor] and
    [createEventProcessor], with the event validators the file builds
    processors from, followed by the properties of the pipeline contract;
    then [ProductProcessor], the product events and [ProcessorFactory],
    over a number type whose arithmetic is left abstract.

    Modelling conventions.
    - Arrays are lists; [push] appends at the end.  Records are immutable
      values, so the shallow copy [{ ...item }] is the item itself.
    - The fields that the structural checks test are JavaScript values
      ([Value]), so that a missing field ([VUndefined]) and a present but
      falsy one ([VStr ""]) can both be written.
    - Callbacks (validator, rule, mapper) are effectful: they may read and
      change the host state and may throw any value.  They are functions
      in the monad [M]; every application settles, with a value or with a
      throw.
    - [async]/[await] is sequential: awaiting a rejected promise is a throw
      at the [await], and no other task runs in between.
    - Strings are ASCII. *)

From Stdlib Require Import ZArith List String Ascii Bool Lia.
Import ListNotations.

Local Open Scope list_scope.

(** ** JavaScript values, truthiness and thrown values *)

Inductive Value : Type :=
| VUndefined
| VNull
| VBool (b : bool)
| VNum (n : Z)
| VNaN
| VStr (s : string)
| VDate (ms : Z).

(** [!!v]: [undefined], [null], [false], [0], [NaN] and the empty string
    are falsy; every object, a [Date] included, is truthy. *)
Definition truthy (v : Value) : bool :=
  match v with
  | VUndefined | VNull | VNaN => false
  | VBool b => b
  | VNum n => negb (n =? 0)%Z
  | VStr s => negb (String.length s =? 0)%nat
  | VDate _ => true
  end.

(** What a [throw] (or a rejected promise) carries: an [Error] object with
    its message, or any other value. *)
Inductive Thrown : Type :=
| ErrorObject (message : string)
| ThrownValue (v : Value).

Inductive Completion (A : Type) : Type :=
| Normal (a : A)
| Throw (t : Thrown).
Arguments Normal {A} a.
Arguments Throw {A} t.

(** ** The host: mutable state outside the pipeline and the clock *)

Class Host : Type := {
  World : Type;
  Date_now : World -> Z * World
}.

Section Monad.
Context `{Host}.

Definition M (A : Type) : Type := World -> Completion A * World.

Definition ret {A} (a : A) : M A := fun w => (Normal a, w).

Definition throw {A} (t : Thrown) : M A := fun w => (Throw t, w).

Definition bind {A B} (m : M A) (k : A -> M B) : M B :=
  fun w =>
    match m w with
    | (Normal a, w') => k a w'
    | (Throw t, w') => (Throw t, w')
    end.

(** [try { body } catch (error) { handler }]: the state changes made
    before the throw stay. *)
Definition try_catch {A} (body : M A) (handler : Thrown -> M A) : M A :=
  fun w =>
    match body w with
    | (Normal a, w') => (Normal a, w')
    | (Throw t, w') => handler t w'
    end.

(** [Date.now()] *)
Definition now : M Z :=
  fun w => let '(t, w') := Date_now w in (Normal t, w').
End Monad.

Notation "x <- m ;; k" := (bind m (fun x => k))
  (at level 61, m at next level, right associativity).

(** The text of the [TypeError] raised by reading a property of [null] or
    [undefined] (V8's wording; nothing below depends on it). *)
Definition TypeError_message (t : Thrown) : string :=
  match t with
  | ThrownValue VNull => "Cannot read properties of null (reading 'message')"
  | _ => "Cannot read properties of undefined (reading 'message')"
  end.

(** [nullish t]: the thrown value is [null] or [undefined]. *)
Definition nullish (t : Thrown) : bool :=
  match t with
  | ThrownValue VUndefined | ThrownValue VNull => true
  | _ => false
  end.

(** [(error as Error).message]: the cast is unchecked.  An [Error] gives its
    message, a primitive other than [null] and [undefined] gives
    [undefined], and [null] and [undefined] raise a [TypeError]. *)
Definition message_of (t : Thrown) : Value :=
  match t with
  | ErrorObject m => VStr m
  | ThrownValue _ => VUndefined
  end.

Definition read_message `{Host} (error : Thrown) : M Value :=
  if nullish error then throw (ErrorObject (TypeError_message error))
  else ret (message_of error).

(** ** Strings *)

(** [errors.join(', ')] is [String.concat ", " errors]. *)
Definition join (sep : string) (l : list string) : string :=
  String.concat sep l.

Definition toLowerCase_ascii (c : ascii) : ascii :=
  let n := nat_of_ascii c in
  if ((65 <=? n) && (n <=? 90))%nat then ascii_of_nat (n + 32) else c.

Fixpoint toLowerCase (s : string) : string :=
  match s with
  | EmptyString => EmptyString
  | String c rest => String (toLowerCase_ascii c) (toLowerCase rest)
  end.

(** White space of [trim], among the 8-bit characters: TAB, LF, VT, FF,
    CR, SPACE and NBSP. *)
Definition isWhiteSpace (c : ascii) : bool :=
  let n := nat_of_ascii c in
  ((9 <=? n) && (n <=? 13) || (n =? 32) || (n =? 160))%nat.

Fixpoint trimStart (s : string) : string :=
  match s with
  | EmptyString => EmptyString
  | String c rest => if isWhiteSpace c then trimStart rest else s
  end.

Fixpoint trimEnd (s : string) : string :=
  match s with
  | EmptyString => EmptyString
  | String c rest =>
      match trimEnd rest with
      | EmptyString => if isWhiteSpace c then EmptyString else String c EmptyString
      | rest' => String c rest'
      end
  end.

Definition trim (s : string) : string := trimEnd (trimStart s).

(** [s.includes(sub)] *)
Fixpoint includes (s sub : string) : bool :=
  String.prefix sub s ||
  match s with
  | EmptyString => false
  | String _ rest => includes rest sub
  end.

(** ** The data model *)

Module ValidationResult.
Record t : Type := mk { isValid : bool; errors : list string }.
End ValidationResult.

Module ProcessingError.
Record t (T : Type) : Type := mk { item : T; error : Value; code : string }.
Arguments mk {T}.
Arguments item {T}.
Arguments error {T}.
Arguments code {T}.
End ProcessingError.

Module ProcessingSummary.
Record t : Type :=
  mk { total : nat; successful : nat; failed : nat; duration : Z }.
End ProcessingSummary.

Module ProcessingResult.
Record t (T : Type) : Type := mk {
  processed : list T;
  errors : list (ProcessingError.t T);
  summary : ProcessingSummary.t
}.
Arguments mk {T}.
Arguments processed {T}.
Arguments errors {T}.
Arguments summary {T}.
End ProcessingResult.

(** [T extends Entity] and [T extends BaseEvent]: the fields read through
    the constraint. *)
Module Entity.
Class ops (T : Type) : Type := {
  id : T -> Value;
  createdAt : T -> Value;
  updatedAt : T -> Value
}.
End Entity.

Module BaseEvent.
Class ops (T : Type) : Type := {
  id : T -> Value;
  eventType : T -> Value
}.
End BaseEvent.

Module BusinessRule.
Record t `{Host} (T : Type) : Type := mk { name : string; apply : T -> M T }.
Arguments mk {_ T}.
Arguments name {_ T}.
Arguments apply {_ T}.
End BusinessRule.

(** [errors.push(s)] under a condition. *)
Definition push_if {A} (c : bool) (l : list A) (a : A) : list A :=
  if c then l ++ [a] else l.

(** The accumulators of [process]: [processed] and [errors]. *)
Definition Acc (T : Type) : Type := (list T * list (ProcessingError.t T))%type.

(** ** [class BaseDataProcessor<T extends Entity>] *)

Module BaseDataProcessor.
Section Instance.
Context `{Host} {T : Type} `{Entity.ops T}.

(** The constructor's arguments. *)
Variable validator : T -> M ValidationResult.t.
Variable businessRules : list (BusinessRule.t T).

(** The error strings of the basic entity validation. *)
Definition structural_errors (item : T) : list string :=
  let errors := [] in
  let errors := push_if (negb (truthy (Entity.id item))) errors
                  "ID is required"%string in
  let errors := push_if (negb (truthy (Entity.createdAt item))) errors
                  "Created date is required"%string in
  let errors := push_if (negb (truthy (Entity.updatedAt item))) errors
                  "Updated date is required"%string in
  errors.

Definition validate (item : T) : M ValidationResult.t :=
  let errors := structural_errors item in
  customValidation <- validator item ;;
  let errors :=
    if negb (ValidationResult.isValid customValidation)
    then errors ++ ValidationResult.errors customValidation
    else errors in
  ret (ValidationResult.mk (List.length errors =? 0)%nat errors).

(** [transform]: [data.map(transformer)], left to right; a throw of the
    transformer ends the map. *)
Fixpoint transform {U : Type} (data : list T) (transformer : T -> M U)
  : M (list U) :=
  match data with
  | [] => ret []
  | item :: rest =>
      u <- transformer item ;;
      us <- transform rest transformer ;;
      ret (u :: us)
  end.

(** The [for (const rule of ...)] loop of [applyBusinessRules]. *)
Fixpoint applyRules (rules : list (BusinessRule.t T)) (processedItem : T)
  : M T :=
  match rules with
  | [] => ret processedItem
  | rule :: rest =>
      processedItem' <- BusinessRule.apply rule processedItem ;;
      applyRules rest processedItem'
  end.

Definition applyBusinessRules (item : T) : M T :=
  let processedItem := item in
  applyRules businessRules processedItem.

(** One turn of the [for (const item of data)] loop of [process]: the
    [try] block and its [catch].  Each path pushes once, as its last
    step, so the accumulators a handler sees are those of the start of
    the turn. *)
Definition processItem (item : T) (acc : Acc T) : M (Acc T) :=
  let '(processed, errors) := acc in
  try_catch
    (validation <- validate item ;;
     if negb (ValidationResult.isValid validation)
     then ret (processed,
               errors ++ [ProcessingError.mk item
                            (VStr (join ", " (ValidationResult.errors validation)))
                            "VALIDATION_ERROR"%string])
     else
       processedItem <- applyBusinessRules item ;;
       ret (processed ++ [processedItem], errors))
    (fun error =>
       message <- read_message error ;;
       ret (processed,
            errors ++ [ProcessingError.mk item message
                         "PROCESSING_ERROR"%string])).

Fixpoint forOf (data : list T) (acc : Acc T) : M (Acc T) :=
  match data with
  | [] => ret acc
  | item :: rest => acc' <- processItem item acc ;; forOf rest acc'
  end.

Definition process (data : list T) : M (ProcessingResult.t T) :=
  startTime <- now ;;
  acc <- forOf data ([], []) ;;
  endTime <- now ;;
  let duration := (endTime - startTime)%Z in
  ret (ProcessingResult.mk (fst acc) (snd acc)
         (ProcessingSummary.mk (List.length data) (List.length (fst acc))
            (List.length (snd acc)) duration)).
End Instance.
End BaseDataProcessor.

(** ** [createEventProcessor<T extends BaseEvent>(validator)] *)

Module createEventProcessor.
Section Instance.
Context `{Host} {T : Type} `{BaseEvent.ops T}.

Variable validator : T -> M ValidationResult.t.

(** [process] asks [validator], not [validate], and has no rules. *)
Definition processItem (item : T) (acc : Acc T) : M (Acc T) :=
  let '(processed, errors) := acc in
  try_catch
    (validation <- validator item ;;
     if negb (ValidationResult.isValid validation)
     then ret (processed,
               errors ++ [ProcessingError.mk item
                            (VStr (join ", " (ValidationResult.errors validation)))
                            "VALIDATION_ERROR"%string])
     else
       let processedItem := item in
       ret (processed ++ [processedItem], errors))
    (fun error =>
       message <- read_message error ;;
       ret (processed,
            errors ++ [ProcessingError.mk item message
                         "PROCESSING_ERROR"%string])).

Fixpoint forOf (data : list T) (acc : Acc T) : M (Acc T) :=
  match data with
  | [] => ret acc
  | item :: rest => acc' <- processItem item acc ;; forOf rest acc'
  end.

Definition process (data : list T) : M (ProcessingResult.t T) :=
  startTime <- now ;;
  acc <- forOf data ([], []) ;;
  endTime <- now ;;
  let duration := (endTime - startTime)%Z in
  ret (ProcessingResult.mk (fst acc) (snd acc)
         (ProcessingSummary.mk (List.length data) (List.length (fst acc))
            (List.length (snd acc)) duration)).

Definition structural_errors (item : T) : list string :=
  let errors := [] in
  let errors := push_if (negb (truthy (BaseEvent.id item))) errors
                  "ID is required"%string in
  let errors := push_if (negb (truthy (BaseEvent.eventType item))) errors
                  "Event type is required"%string in
  errors.

Definition validate (item : T) : M ValidationResult.t :=
  let errors := structural_errors item in
  customValidation <- validator item ;;
  let errors :=
    if negb (ValidationResult.isValid customValidation)
    then errors ++ ValidationResult.errors customValidation
    else errors in
  ret (ValidationResult.mk (List.length errors =? 0)%nat errors).

Fixpoint transform {U : Type} (data : list T) (transformer : T -> M U)
  : M (list U) :=
  match data with
  | [] => ret []
  | item :: rest =>
      u <- transformer item ;;
      us <- transform rest transformer ;;
      ret (u :: us)
  end.
End Instance.
End createEventProcessor.

(** ** [interface User extends Entity] and [class UserProcessor] *)

Module User.
Inductive Role : Type := admin | user.

Record t : Type := mk {
  id : Value;
  createdAt : Value;
  updatedAt : Value;
  email : string;
  name : string;
  role : Role
}.

#[global] Instance entity : Entity.ops t :=
  {| Entity.id := id; Entity.createdAt := createdAt;
     Entity.updatedAt := updatedAt |}.
End User.

Module UserProcessor.
Section Instance.
Context `{Host}.

Definition validator (user : User.t) : M ValidationResult.t :=
  ret (ValidationResult.mk
         (includes (User.email user) "@"
          && (0 <? String.length (User.name user))%nat)
         ((if includes (User.email user) "@"
           then [] else ["Invalid email format"%string])
          ++ (if (0 <? String.length (User.name user))%nat
              then [] else ["Name is required"%string]))).

Definition normalizeEmail : BusinessRule.t User.t :=
  BusinessRule.mk "normalizeEmail"
    (fun user =>
       ret (User.mk (User.id user) (User.createdAt user)
              (User.updatedAt user)
              (trim (toLowerCase (User.email user)))
              (User.name user) (User.role user))).

(** [new Date()] reads the clock. *)
Definition updateTimestamp : BusinessRule.t User.t :=
  BusinessRule.mk "updateTimestamp"
    (fun user =>
       date <- now ;;
       ret (User.mk (User.id user) (User.createdAt user)
              (VDate date)
              (User.email user) (User.name user) (User.role user))).

Definition businessRules : list (BusinessRule.t User.t) :=
  [normalizeEmail; updateTimestamp].

Definition process := BaseDataProcessor.process validator businessRules.
Definition validate := BaseDataProcessor.validate validator.
End Instance.
End UserProcessor.

(** ** [interface userLoginEvent extends BaseEvent] and the event processors *)

Module userLoginEvent.
Record t : Type := mk {
  id : Value;
  eventType : Value;
  userId : Value;
  timestamp : Value
}.

#[global] Instance event : BaseEvent.ops t :=
  {| BaseEvent.id := id; BaseEvent.eventType := eventType |}.
End userLoginEvent.

Definition userLoginValidator `{Host} (event : userLoginEvent.t)
  : M ValidationResult.t :=
  let errors := [] in
  let errors := push_if (negb (truthy (userLoginEvent.userId event))) errors
                  "User ID is required"%string in
  let errors := push_if (negb (truthy (userLoginEvent.timestamp event))) errors
                  "Timestamp is required"%string in
  ret (ValidationResult.mk (List.length errors =? 0)%nat errors).

Module userLoginProcessor.
Section Instance.
Context `{Host}.
Definition process := createEventProcessor.process userLoginValidator.
Definition validate := createEventProcessor.validate userLoginValidator.
End Instance.
End userLoginProcessor.

(** [createEventProcessor<BaseEvent>(event => ({ isValid: !!event.id &&
    !!event.eventType, errors: [] }))], at any event type. *)
Module genericEventProcessor.
Section Instance.
Context `{Host} {T : Type} `{BaseEvent.ops T}.

Definition validator (event : T) : M ValidationResult.t :=
  ret (ValidationResult.mk
         (truthy (BaseEvent.id event) && truthy (BaseEvent.eventType event))
         []).

Definition process := createEventProcessor.process validator.
Definition validate := createEventProcessor.validate validator.
End Instance.
End genericEventProcessor.

(** ** A host for the worked examples

    Its only state is the clock, in milliseconds; each reading advances it
    by one. *)
Definition tickingClock : Host :=
  {| World := Z; Date_now := fun w => (w, (w + 1)%Z) |}.

(** The first user of [demonstrateGenericProcessing], with white space
    around the email. *)
Definition john : User.t :=
  User.mk (VStr "user1") (VDate 1000) (VDate 1000)
    "  JOHN@EXAMPLE.COM " "John Doe" User.user.

(** ** Outcomes of the turns of the loop

    Each turn of [for (const item of data)] ends in one outcome for its
    item: the item passed and its processed value was pushed, or it failed
    and an error entry was pushed.  [passed] and [failed] list the two kinds
    in the order of the turns. *)

Inductive Outcome (T : Type) : Type :=
| Passed (processedItem : T)
| Failed (entry : ProcessingError.t T).
Arguments Passed {T}.
Arguments Failed {T}.

Fixpoint passed {T} (os : list (Outcome T)) : list T :=
  match os with
  | [] => []
  | Passed y :: rest => y :: passed rest
  | Failed _ :: rest => passed rest
  end.

Fixpoint failed {T} (os : list (Outcome T)) : list (ProcessingError.t T) :=
  match os with
  | [] => []
  | Passed _ :: rest => failed rest
  | Failed e :: rest => e :: failed rest
  end.

(** The accumulators after an outcome is recorded. *)
Definition record {T} (acc : Acc T) (o : Outcome T) : Acc T :=
  match o with
  | Passed y => (fst acc ++ [y], snd acc)
  | Failed e => (fst acc, snd acc ++ [e])
  end.

(** What the [catch] block of [process] does with the thrown value. *)
Definition caught `{Host} {T} (item : T) (acc : Acc T) (t : Thrown)
  : M (Acc T) :=
  fun w =>
    if nullish t then (Throw (ErrorObject (TypeError_message t)), w)
    else (Normal (record acc (Failed (ProcessingError.mk item (message_of t)
                                        "PROCESSING_ERROR"%string))), w).

(** A callback application that never throws [null] or [undefined]. *)
Definition never_nullish `{Host} {A} (m : M A) : Prop :=
  forall w t w', m w = (Throw t, w') -> nullish t = false.

(** A callback that neither reads nor changes the host state. *)
Definition pure_callback `{Host} {A B} (f : A -> M B) : Prop :=
  forall x, exists c, forall w, f x w = (c, w).

(** ** The loop over the items, for any body of the loop *)

Fixpoint turns `{Host} {T : Type} (turn : T -> Acc T -> M (Acc T))
  (data : list T) (acc : Acc T) : M (Acc T) :=
  match data with
  | [] => ret acc
  | item :: rest => acc' <- turn item acc ;; turns turn rest acc'
  end.

(** ** The run of one turn, as a relation

    [base_turn validator businessRules item w o w']: the turn of
    [BaseDataProcessor.process] for [item], started in host state [w],
    records outcome [o] and leaves the host in [w']. *)
Inductive base_turn `{Host} {T : Type} `{Entity.ops T}
  (validator : T -> M ValidationResult.t)
  (businessRules : list (BusinessRule.t T)) (item : T) (w : World)
  : Outcome T -> World -> Prop :=
| base_turn_invalid validation w1 :
    BaseDataProcessor.validate validator item w = (Normal validation, w1) ->
    ValidationResult.isValid validation = false ->
    base_turn validator businessRules item w
      (Failed (ProcessingError.mk item
                 (VStr (join ", " (ValidationResult.errors validation)))
                 "VALIDATION_ERROR"%string)) w1
| base_turn_passed validation w1 processedItem w2 :
    BaseDataProcessor.validate validator item w = (Normal validation, w1) ->
    ValidationResult.isValid validation = true ->
    BaseDataProcessor.applyBusinessRules businessRules item w1
    = (Normal processedItem, w2) ->
    base_turn validator businessRules item w (Passed processedItem) w2
| base_turn_validate_fault t w1 :
    BaseDataProcessor.validate validator item w = (Throw t, w1) ->
    nullish t = false ->
    base_turn validator businessRules item w
      (Failed (ProcessingError.mk item (message_of t)
                 "PROCESSING_ERROR"%string)) w1
| base_turn_rule_fault validation w1 t w2 :
    BaseDataProcessor.validate validator item w = (Normal validation, w1) ->
    ValidationResult.isValid validation = true ->
    BaseDataProcessor.applyBusinessRules businessRules item w1 = (Throw t, w2) ->
    nullish t = false ->
    base_turn validator businessRules item w
      (Failed (ProcessingError.mk item (message_of t)
                 "PROCESSING_ERROR"%string)) w2.

(** The same for the processors of [createEventProcessor]. *)
Inductive event_turn `{Host} {T : Type}
  (validator : T -> M ValidationResult.t) (item : T) (w : World)
  : Outcome T -> World -> Prop :=
| event_turn_invalid validation w1 :
    validator item w = (Normal validation, w1) ->
    ValidationResult.isValid validation = false ->
    event_turn validator item w
      (Failed (ProcessingError.mk item
                 (VStr (join ", " (ValidationResult.errors validation)))
                 "VALIDATION_ERROR"%string)) w1
| event_turn_passed validation w1 :
    validator item w = (Normal validation, w1) ->
    ValidationResult.isValid validation = true ->
    event_turn validator item w (Passed item) w1
| event_turn_validator_fault t w1 :
    validator item w = (Throw t, w1) ->
    nullish t = false ->
    event_turn validator item w
      (Failed (ProcessingError.mk item (message_of t)
                 "PROCESSING_ERROR"%string)) w1.

(** What a turn of [BaseDataProcessor.process] records for its item: its
    processed value, the result of [applyBusinessRules] on the item, or an
    error entry that holds the item. *)
Definition base_outcome_of `{Host} {T : Type}
  (businessRules : list (BusinessRule.t T)) (item : T) (o : Outcome T) : Prop :=
  match o with
  | Passed y =>
      exists w1 w2,
        BaseDataProcessor.applyBusinessRules businessRules item w1
        = (Normal y, w2)
  | Failed e => ProcessingError.item e = item
  end.

(** The same for the event processors, which push the item as it is. *)
Definition event_outcome_of {T : Type} (item : T) (o : Outcome T) : Prop :=
  match o with
  | Passed y => y = item
  | Failed e => ProcessingError.item e = item
  end.

(** ** Rules in declaration order

    [threaded rules x w y w']: starting from [x] in host state [w], each
    rule of [rules], taken in order, returns normally on the value the one
    before it returned, and the last returns [y] in host state [w']. *)
Inductive threaded `{Host} {T : Type}
  : list (BusinessRule.t T) -> T -> World -> T -> World -> Prop :=
| threaded_nil x w : threaded [] x w x w
| threaded_cons rule rest x w x1 w1 y w' :
    BusinessRule.apply rule x w = (Normal x1, w1) ->
    threaded rest x1 w1 y w' ->
    threaded (rule :: rest) x w y w'.

(** [rule_faults rules x w t w']: the rules before some rule of [rules]
    thread [x] to a value on which that rule throws [t]. *)
Definition rule_faults `{Host} {T : Type} (rules : list (BusinessRule.t T))
  (x : T) (w : World) (t : Thrown) (w' : World) : Prop :=
  exists pre rule post y wi,
    rules = pre ++ rule :: post
    /\ threaded pre x w y wi
    /\ BusinessRule.apply rule y wi = (Throw t, w').

(** A fault in the turn of [item] started in [w]: [validate] throws, or the
    item is valid and a rule throws. *)
Definition base_fault `{Host} {T : Type} `{Entity.ops T}
  (validator : T -> M ValidationResult.t)
  (businessRules : list (BusinessRule.t T))
  (item : T) (w : World) (t : Thrown) (w' : World) : Prop :=
  BaseDataProcessor.validate validator item w = (Throw t, w')
  \/ exists validation w1,
       BaseDataProcessor.validate validator item w = (Normal validation, w1)
       /\ ValidationResult.isValid validation = true
       /\ rule_faults businessRules item w1 t w'.

(** ** Well-formed results *)

(** The counts of a result agree with the input and with its two lists. *)
Definition summary_consistent {T} (data : list T) (r : ProcessingResult.t T)
  : Prop :=
  let s := ProcessingResult.summary r in
  ProcessingSummary.total s = List.length data
  /\ ProcessingSummary.successful s
     = List.length (ProcessingResult.processed r)
  /\ ProcessingSummary.failed s = List.length (ProcessingResult.errors r)
  /\ ProcessingSummary.successful s + ProcessingSummary.failed s
     = ProcessingSummary.total s.

(** The result for the empty input, up to the measured duration. *)
Definition empty_result {T} (r : ProcessingResult.t T) : Prop :=
  ProcessingResult.processed r = []
  /\ ProcessingResult.errors r = []
  /\ ProcessingSummary.total (ProcessingResult.summary r) = 0
  /\ ProcessingSummary.successful (ProcessingResult.summary r) = 0
  /\ ProcessingSummary.failed (ProcessingResult.summary r) = 0.

(** ** Inputs of the worked examples *)

(** The second user of [demonstrateGenericProcessing]. *)
Definition jane : User.t :=
  User.mk (VStr "user2") (VDate 1000) (VDate 1000)
    "invalid-email" "" User.admin.

(** A login event that is sound but for its [id]. *)
Definition loginWithId (id : Value) : userLoginEvent.t :=
  userLoginEvent.mk id (VStr "userLogin") (VStr "user1") (VDate 1000).

(** The two login events of [demonstrateGenericProcessing]. *)
Definition loginEvents : list userLoginEvent.t :=
  [userLoginEvent.mk (VStr "1") (VStr "userLogin") (VStr "user1") (VDate 1000);
   userLoginEvent.mk (VStr "2") (VStr "userLogin") (VStr "") (VDate 1000)].

(** A validator that throws [new Error('boom')]. *)
Definition throwingValidator `{Host} {T : Type} (item : T)
  : M ValidationResult.t :=
  throw (ErrorObject "boom").


(** A rule that throws [new Error('second rule failed')]. *)
Definition failingRule `{Host} {T : Type} : BusinessRule.t T :=
  BusinessRule.mk "fails" (fun _ => throw (ErrorObject "second rule failed")).

(** [john] after [normalizeEmail], and after [updateTimestamp] at clock
    reading [date]. *)
Definition johnNormalized : User.t :=
  User.mk (VStr "user1") (VDate 1000) (VDate 1000)
    "john@example.com" "John Doe" User.user.

Definition johnStamped (date : Z) : User.t :=
  User.mk (VStr "user1") (VDate 1000) (VDate date)
    "john@example.com" "John Doe" User.user.

(** A user whose [id] is the empty string, and an always-invalid validator
    without messages. *)
Definition userWithEmptyId : User.t :=
  User.mk (VStr "") (VDate 1000) (VDate 1000)
    "ann@example.com" "Ann" User.user.

Definition silentValidator `{Host} {T : Type} (item : T)
  : M ValidationResult.t :=
  ret (ValidationResult.mk false []).

(** * The rest of the file: products, product events, the factory *)

(** ** Numbers

    [price] and [quantity] are IEEE doubles.  Their arithmetic is not
    modelled: the two tests and the rounding that the code applies to them
    are operations of the number type, about which nothing is assumed. *)
Class Numbers : Type := {
  number : Type;
  (** [x > 0] *)
  gt_zero : number -> bool;
  (** [x <= 0] *)
  le_zero : number -> bool;
  (** [Math.round(x * 100) / 100] *)
  round_cents : number -> number
}.

(** ** [interface Product extends Entity] and [class ProductProcessor] *)

Module Product.
Record t `{Numbers} : Type := mk {
  id : Value;
  createdAt : Value;
  updatedAt : Value;
  name : string;
  price : number;
  category : string
}.
Arguments mk {_}.

#[global] Instance entity `{Numbers} : Entity.ops t :=
  {| Entity.id := id; Entity.createdAt := createdAt;
     Entity.updatedAt := updatedAt |}.
End Product.

Module ProductProcessor.
Section Instance.
Context `{Host} `{Numbers}.

Definition validator (product : Product.t) : M ValidationResult.t :=
  ret (ValidationResult.mk
         (gt_zero (Product.price product)
          && (0 <? String.length (Product.name product))%nat)
         ((if gt_zero (Product.price product)
           then [] else ["Price must be positive"%string])
          ++ (if (0 <? String.length (Product.name product))%nat
              then [] else ["Name is required"%string]))).

Definition normalizeName : BusinessRule.t Product.t :=
  BusinessRule.mk "normalizeName"
    (fun product =>
       ret (Product.mk (Product.id product) (Product.createdAt product)
              (Product.updatedAt product)
              (trim (Product.name product))
              (Product.price product) (Product.category product))).

Definition roundPrice : BusinessRule.t Product.t :=
  BusinessRule.mk "roundPrice"
    (fun product =>
       ret (Product.mk (Product.id product) (Product.createdAt product)
              (Product.updatedAt product)
              (Product.name product)
              (round_cents (Product.price product))
              (Product.category product))).

Definition businessRules : list (BusinessRule.t Product.t) :=
  [normalizeName; roundPrice].

Definition process := BaseDataProcessor.process validator businessRules.
Definition validate := BaseDataProcessor.validate validator.
End Instance.
End ProductProcessor.

(** ** [interface productAddedEvent extends BaseEvent] *)

Module productAddedEvent.
Record t `{Numbers} : Type := mk {
  id : Value;
  eventType : Value;
  productId : Value;
  quantity : number;
  timestamp : Value
}.
Arguments mk {_}.

#[global] Instance event `{Numbers} : BaseEvent.ops t :=
  {| BaseEvent.id := id; BaseEvent.eventType := eventType |}.
End productAddedEvent.

Definition productAddedValidator `{Host} `{Numbers}
  (event : productAddedEvent.t) : M ValidationResult.t :=
  let errors := [] in
  let errors := push_if (negb (truthy (productAddedEvent.productId event)))
                  errors "Product ID is required"%string in
  let errors := push_if (le_zero (productAddedEvent.quantity event)) errors
                  "Quantity must be positive"%string in
  ret (ValidationResult.mk (List.length errors =? 0)%nat errors).

Module productAddProcessor.
Section Instance.
Context `{Host} `{Numbers}.
Definition process := createEventProcessor.process productAddedValidator.
Definition validate := createEventProcessor.validate productAddedValidator.
End Instance.
End productAddProcessor.

(** ** [interface DataProcessor<T>] and [class ProcessorFactory] *)

Module DataProcessor.
Record t `{Host} (T : Type) : Type := mk {
  process : list T -> M (ProcessingResult.t T);
  validate : T -> M ValidationResult.t;
  transform : forall U : Type, list T -> (T -> M U) -> M (list U)
}.
Arguments mk {_ T}.
Arguments process {_ T}.
Arguments validate {_ T}.
Arguments transform {_ T}.
End DataProcessor.

(** [new BaseDataProcessor<T>(validator, businessRules)] *)
Definition newBaseDataProcessor `{Host} {T : Type} `{Entity.ops T}
  (validator : T -> M ValidationResult.t)
  (businessRules : list (BusinessRule.t T)) : DataProcessor.t T :=
  DataProcessor.mk
    (BaseDataProcessor.process validator businessRules)
    (BaseDataProcessor.validate validator)
    (fun U => BaseDataProcessor.transform (U := U)).

(** [new UserProcessor()] and [new ProductProcessor()] *)
Definition newUserProcessor `{Host} : DataProcessor.t User.t :=
  newBaseDataProcessor UserProcessor.validator UserProcessor.businessRules.

Definition newProductProcessor `{Host} `{Numbers}
  : DataProcessor.t Product.t :=
  newBaseDataProcessor ProductProcessor.validator
    ProductProcessor.businessRules.

Module ProcessorFactory.
(** The [type] argument: one of the two classes, or any other function. *)
Inductive ProcessorType : Type :=
| UserProcessorClass
| ProductProcessorClass
| OtherFunction.

(** What [createProcessor<T>] returns.  The casts
    [as unknown as DataProcessor<T>] do not change the object: for the two
    known classes it is a processor of users or of products, whatever [T]
    is. *)
Inductive Created `{Host} `{Numbers} (T : Type) : Type :=
| OfUsers (processor : DataProcessor.t User.t)
| OfProducts (processor : DataProcessor.t Product.t)
| OfT (processor : DataProcessor.t T).
Arguments OfUsers {_ _ T}.
Arguments OfProducts {_ _ T}.
Arguments OfT {_ _ T}.

(** An optional argument left out is [None]; [a || b] takes [b] then. *)
Definition orDefault {A} (a : option A) (b : A) : A :=
  match a with Some x => x | None => b end.

Definition createProcessor `{Host} `{Numbers} {T : Type} `{Entity.ops T}
  (type : ProcessorType)
  (customValidator : option (T -> M ValidationResult.t))
  (customRules : option (list (BusinessRule.t T))) : Created T :=
  match type with
  | UserProcessorClass => OfUsers newUserProcessor
  | ProductProcessorClass => OfProducts newProductProcessor
  | OtherFunction =>
      OfT (newBaseDataProcessor
             (orDefault customValidator
                (fun _ => ret (ValidationResult.mk true [])))
             (orDefault customRules []))
  end.
End ProcessorFactory.

(** ** Vocabulary of the further properties *)

(** The entry [process] pushes for an item that fails validation. *)
Definition validation_entry {T} (item : T) (validation : ValidationResult.t)
  : ProcessingError.t T :=
  ProcessingError.mk item
    (VStr (join ", " (ValidationResult.errors validation)))
    "VALIDATION_ERROR"%string.

(** The result record that [process] builds from its two lists. *)
Definition result_of {T} (data processed : list T)
  (errors : list (ProcessingError.t T)) (duration : Z)
  : ProcessingResult.t T :=
  ProcessingResult.mk processed errors
    (ProcessingSummary.mk (List.length data) (List.length processed)
       (List.length errors) duration).

(** A callback that is a function: it returns [f x] and leaves the host
    state alone. *)
Definition returns `{Host} {A B} (c : A -> M B) (f : A -> B) : Prop :=
  forall x w, c x w = (Normal (f x), w).

(** Rules that are functions, in the order of the rules. *)
Definition rules_return `{Host} {T} (businessRules : list (BusinessRule.t T))
  (gs : list (T -> T)) : Prop :=
  Forall2 (fun rule g => returns (BusinessRule.apply rule) g) businessRules gs.

(** The functions of the rules, one after the other. *)
Definition run_rules {T} (gs : list (T -> T)) (x : T) : T :=
  fold_left (fun y g => g y) gs x.

(** What [BaseDataProcessor.validate] answers when the validator is the
    function [v]. *)
Definition base_validation {T} `{Entity.ops T}
  (v : T -> ValidationResult.t) (item : T) : ValidationResult.t :=
  let errors :=
    BaseDataProcessor.structural_errors item
    ++ (if ValidationResult.isValid (v item) then []
        else ValidationResult.errors (v item)) in
  ValidationResult.mk (List.length errors =? 0)%nat errors.

(** The three entity fields are truthy. *)
Definition sound {T} `{Entity.ops T} (item : T) : bool :=
  truthy (Entity.id item) && truthy (Entity.createdAt item)
  && truthy (Entity.updatedAt item).

(** The users that [UserProcessor] accepts. *)
Definition user_valid (user : User.t) : bool :=
  sound user && includes (User.email user) "@"
  && (0 <? String.length (User.name user))%nat.

(** What the two rules of [UserProcessor] make of a user when the clock
    reads [date]. *)
Definition stamped (user : User.t) (date : Z) : User.t :=
  User.mk (User.id user) (User.createdAt user) (VDate date)
    (trim (toLowerCase (User.email user))) (User.name user) (User.role user).

(** What each rule of [ProductProcessor] makes of a product, and what the
    two make of it, one after the other. *)
Definition withTrimmedName `{Numbers} (product : Product.t) : Product.t :=
  Product.mk (Product.id product) (Product.createdAt product)
    (Product.updatedAt product) (trim (Product.name product))
    (Product.price product) (Product.category product).

Definition withRoundedPrice `{Numbers} (product : Product.t) : Product.t :=
  Product.mk (Product.id product) (Product.createdAt product)
    (Product.updatedAt product) (Product.name product)
    (round_cents (Product.price product)) (Product.category product).

Definition normalized `{Numbers} (product : Product.t) : Product.t :=
  withRoundedPrice (withTrimmedName product).

(** Integer amounts, on which rounding to cents changes nothing. *)
Definition integerAmounts : Numbers :=
  {| number := Z; gt_zero := fun x => (0 <? x)%Z;
     le_zero := fun x => (x <=? 0)%Z; round_cents := fun x => x |}.

(** The answers of the validators of the file, as values. *)
Definition user_validation (user : User.t) : ValidationResult.t :=
  ValidationResult.mk
    (includes (User.email user) "@"
     && (0 <? String.length (User.name user))%nat)
    ((if includes (User.email user) "@"
      then [] else ["Invalid email format"%string])
     ++ (if (0 <? String.length (User.name user))%nat
         then [] else ["Name is required"%string])).

Definition product_validation `{Numbers} (product : Product.t)
  : ValidationResult.t :=
  ValidationResult.mk
    (gt_zero (Product.price product)
     && (0 <? String.length (Product.name product))%nat)
    ((if gt_zero (Product.price product)
      then [] else ["Price must be positive"%string])
     ++ (if (0 <? String.length (Product.name product))%nat
         then [] else ["Name is required"%string])).

Definition login_validation (event : userLoginEvent.t) : ValidationResult.t :=
  let errors := [] in
  let errors := push_if (negb (truthy (userLoginEvent.userId event))) errors
                  "User ID is required"%string in
  let errors := push_if (negb (truthy (userLoginEvent.timestamp event))) errors
                  "Timestamp is required"%string in
  ValidationResult.mk (List.length errors =? 0)%nat errors.

Definition product_added_validation `{Numbers} (event : productAddedEvent.t)
  : ValidationResult.t :=
  let errors := [] in
  let errors := push_if (negb (truthy (productAddedEvent.productId event)))
                  errors "Product ID is required"%string in
  let errors := push_if (le_zero (productAddedEvent.quantity event)) errors
                  "Quantity must be positive"%string in
  ValidationResult.mk (List.length errors =? 0)%nat errors.

(** The products that [ProductProcessor] accepts. *)
Definition product_valid `{Numbers} (product : Product.t) : bool :=
  sound product && gt_zero (Product.price product)
  && (0 <? String.length (Product.name product))%nat.

(** The events that the two [validate] methods of the event processors
    accept on structural grounds. *)
Definition event_sound {T} `{BaseEvent.ops T} (event : T) : bool :=
  truthy (BaseEvent.id event) && truthy (BaseEvent.eventType event).

(** The users that [UserProcessor.process] returns for the valid users
    [users], from host state [w]: each rule chain reads the clock once. *)
Fixpoint stamp_all `{Host} (users : list User.t) (w : World)
  : list User.t * World :=
  match users with
  | [] => ([], w)
  | user :: rest =>
      let '(ys, w') := stamp_all rest (snd (Date_now w)) in
      (stamped user (fst (Date_now w)) :: ys, w')
  end.

(** A product whose name is white space only, with an integer price. *)
Definition blankProduct : Product.t (H := integerAmounts) :=
  Product.mk (H := integerAmounts) (VStr "product3") (VDate 1000) (VDate 1000)
    "  " 5%Z "Misc".

(** A user with a new [updatedAt]. *)
Definition withUpdatedAt (user : User.t) (date : Z) : User.t :=
  User.mk (User.id user) (User.createdAt user) (VDate date)
    (User.email user) (User.name user) (User.role user).

(** A validator that takes ten milliseconds of the ticking clock and
    accepts everything. *)
Definition slowValidator {T : Type} (item : T)
  : M (H := tickingClock) ValidationResult.t :=
  fun w => (Normal (ValidationResult.mk true []), (w + 10)%Z).

(** * Facts about the monad and the loop *)

Lemma passed_length_failed_length {T} (os : list (Outcome T)) :
  List.length (passed os) + List.length (failed os) = List.length os.
Proof.
  induction os as [|[y|e] os IH]; simpl; lia.
Qed.

Lemma passed_app {T} (os1 os2 : list (Outcome T)) :
  passed (os1 ++ os2) = passed os1 ++ passed os2.
Proof.
  induction os1 as [|[y|e] os1 IH]; simpl; congruence.
Qed.

Lemma failed_app {T} (os1 os2 : list (Outcome T)) :
  failed (os1 ++ os2) = failed os1 ++ failed os2.
Proof.
  induction os1 as [|[y|e] os1 IH]; simpl; congruence.
Qed.

Lemma record_passed_failed {T} (acc : Acc T) (o : Outcome T) os :
  (fst (record acc o) ++ passed os, snd (record acc o) ++ failed os)
  = (fst acc ++ passed (o :: os), snd acc ++ failed (o :: os)).
Proof.
  destruct o; simpl; rewrite <- app_assoc; reflexivity.
Qed.

Lemma Forall2_length_eq {A B} (R : A -> B -> Prop) l1 l2 :
  Forall2 R l1 l2 -> List.length l1 = List.length l2.
Proof. induction 1; simpl; congruence. Qed.

Lemma Forall2_weaken {A B} (R R' : A -> B -> Prop) l1 l2 :
  (forall a b, R a b -> R' a b) -> Forall2 R l1 l2 -> Forall2 R' l1 l2.
Proof. intros HR; induction 1; constructor; auto. Qed.

Section MonadFacts.
Context `{Host}.

Lemma bind_Normal {A B} (m : M A) (k : A -> M B) w a w' :
  m w = (Normal a, w') -> bind m k w = k a w'.
Proof. unfold bind; intros ->; reflexivity. Qed.

Lemma bind_Throw {A B} (m : M A) (k : A -> M B) w t w' :
  m w = (Throw t, w') -> bind m k w = (Throw t, w').
Proof. unfold bind; intros ->; reflexivity. Qed.

Lemma bind_Normal_inv {A B} (m : M A) (k : A -> M B) w b w' :
  bind m k w = (Normal b, w') ->
  exists a w1, m w = (Normal a, w1) /\ k a w1 = (Normal b, w').
Proof.
  unfold bind; destruct (m w) as [[a|t] w1]; intros E.
  - exists a, w1; split; [reflexivity | exact E].
  - discriminate E.
Qed.

Lemma now_Normal w : now w = (Normal (fst (Date_now w)), snd (Date_now w)).
Proof. unfold now; destruct (Date_now w); reflexivity. Qed.
End MonadFacts.

(** ** The loop over the items, for any body of the loop *)

Section Turns.
Context `{Host} {T : Type}.

Variable turn : T -> Acc T -> M (Acc T).

(** The turns of a sequence are the turns of its parts, one after the
    other. *)
Lemma turns_app (pre post : list T) acc w :
  turns turn (pre ++ post) acc w
  = (acc1 <- turns turn pre acc ;; turns turn post acc1) w.
Proof.
  revert acc w; induction pre as [|x pre IH]; intros acc w; simpl.
  - reflexivity.
  - unfold bind in *. destruct (turn x acc w) as [[acc1|t] w1].
    + rewrite IH. reflexivity.
    + reflexivity.
Qed.

(** [turn_spec item w o w']: the turn for [item] started in [w] records
    [o] and ends in [w']. *)
Variable turn_spec : T -> World -> Outcome T -> World -> Prop.

Hypothesis turn_records :
  forall item acc w acc' w',
    turn item acc w = (Normal acc', w') ->
    exists o, turn_spec item w o w' /\ acc' = record acc o.

Lemma turns_outcomes (data : list T) :
  forall acc w acc' w',
    turns turn data acc w = (Normal acc', w') ->
    exists os,
      Forall2 (fun item o => exists wi wj, turn_spec item wi o wj) data os
      /\ acc' = (fst acc ++ passed os, snd acc ++ failed os).
Proof.
  induction data as [|item rest IH]; intros acc w acc' w' E; simpl in E.
  - exists []. split; [constructor|].
    inversion E; subst. simpl. rewrite !app_nil_r. now destruct acc'.
  - apply bind_Normal_inv in E. destruct E as (acc1 & w1 & E1 & E2).
    destruct (turn_records _ _ _ _ _ E1) as (o & Ho & ->).
    destruct (IH _ _ _ _ E2) as (os & Hos & ->).
    exists (o :: os). split; [constructor; [exists w, w1|]; assumption|].
    apply record_passed_failed.
Qed.

(** The turn of the item at a given place of the input: it starts with
    what the items before it left, and its outcome sits at its place. *)
Lemma turns_at (pre : list T) (item : T) (post : list T) acc w acc' w' :
  turns turn (pre ++ item :: post) acc w = (Normal acc', w') ->
  exists os1 o os2 wi wj,
    turns turn pre acc w
    = (Normal (fst acc ++ passed os1, snd acc ++ failed os1), wi)
    /\ turn_spec item wi o wj
    /\ acc' = (fst acc ++ passed (os1 ++ o :: os2),
               snd acc ++ failed (os1 ++ o :: os2))
    /\ List.length os1 = List.length pre
    /\ List.length os2 = List.length post.
Proof.
  rewrite turns_app. intros E.
  apply bind_Normal_inv in E. destruct E as (acc1 & wi & Epre & E).
  simpl in E.
  apply bind_Normal_inv in E. destruct E as (acc2 & wj & Eitem & Epost).
  destruct (turns_outcomes _ _ _ _ _ Epre) as (os1 & H1 & ->).
  destruct (turn_records _ _ _ _ _ Eitem) as (o & Ho & ->).
  destruct (turns_outcomes _ _ _ _ _ Epost) as (os2 & H2 & ->).
  exists os1, o, os2, wi, wj.
  split; [exact Epre|]. split; [exact Ho|].
  split.
  - rewrite record_passed_failed. simpl fst. simpl snd.
    rewrite passed_app, failed_app, <- !app_assoc. reflexivity.
  - split; symmetry; eapply Forall2_length_eq; eassumption.
Qed.

(** When no turn throws, the loop ends normally. *)
Hypothesis turn_total :
  forall item acc w, exists acc' w', turn item acc w = (Normal acc', w').

End Turns.

(** ** Rules *)

Section Rules.
Context `{Host} {T : Type}.

(** [applyRules] returns normally exactly when the rules thread. *)
Lemma applyRules_threaded `{Entity.ops T} (rules : list (BusinessRule.t T)) :
  forall x w y w',
    BaseDataProcessor.applyRules rules x w = (Normal y, w')
    <-> threaded rules x w y w'.
Proof.
  induction rules as [|rule rest IH]; intros x w y w'; simpl.
  - split.
    + intros E; inversion E; subst; constructor.
    + intros Ht; inversion Ht; subst; reflexivity.
  - split.
    + intros E. apply bind_Normal_inv in E.
      destruct E as (x1 & w1 & E1 & E2).
      econstructor; [exact E1 | apply IH; exact E2].
    + intros Ht; inversion Ht as [|? ? ? ? x1 w1 ? ? Hap Hrest]; subst.
      rewrite (bind_Normal _ _ _ _ _ Hap). apply IH; exact Hrest.
Qed.

(** [applyRules] throws exactly when some rule throws on the value
    threaded to it. *)
Lemma applyRules_rule_faults `{Entity.ops T} (rules : list (BusinessRule.t T)) :
  forall x w t w',
    BaseDataProcessor.applyRules rules x w = (Throw t, w')
    <-> rule_faults rules x w t w'.
Proof.
  induction rules as [|rule rest IH]; intros x w t w'; simpl.
  - split.
    + intros E; discriminate E.
    + intros (pre & r & post & y & wi & E & _); destruct pre; discriminate E.
  - split.
    + intros E. unfold bind in E.
      destruct (BusinessRule.apply rule x w) as [[x1|t1] w1] eqn:E1.
      * apply IH in E.
        destruct E as (pre & r & post & y & wi & -> & Ht & Er).
        exists (rule :: pre), r, post, y, wi.
        split; [reflexivity|]. split; [|exact Er].
        econstructor; eassumption.
      * inversion E; subst.
        exists [], rule, rest, x, w.
        split; [reflexivity|]. split; [constructor | exact E1].
    + intros (pre & r & post & y & wi & E & Ht & Er).
      destruct pre as [|r0 pre]; simpl in E; inversion E; subst.
      * inversion Ht; subst. rewrite (bind_Throw _ _ _ _ _ Er). reflexivity.
      * inversion Ht as [|? ? ? ? x1 w1 ? ? Hap Hrest]; subst.
        rewrite (bind_Normal _ _ _ _ _ Hap). apply IH.
        exists pre, r, post, y, wi. auto.
Qed.
End Rules.

Lemma record_injective {T} (o1 o2 : Outcome T) :
  record ([], []) o1 = record ([], []) o2 -> o1 = o2.
Proof.
  destruct o1 as [y1|e1], o2 as [y2|e2]; simpl; intros E;
    inversion E; reflexivity.
Qed.

(** ** [BaseDataProcessor] *)

Section BaseFacts.
Context `{Host} {T : Type} `{Entity.ops T}.
Variable validator : T -> M ValidationResult.t.
Variable businessRules : list (BusinessRule.t T).

Lemma base_forOf_turns data acc w :
  BaseDataProcessor.forOf validator businessRules data acc w
  = turns (BaseDataProcessor.processItem validator businessRules) data acc w.
Proof.
  revert acc w; induction data as [|item rest IH]; intros acc w; simpl.
  - reflexivity.
  - unfold bind.
    destruct (BaseDataProcessor.processItem validator businessRules item acc w)
      as [[acc1|t] w1]; [apply IH | reflexivity].
Qed.

(** [validate] in terms of the validator's completion. *)
Lemma base_validate_cases item w :
  BaseDataProcessor.validate validator item w =
  match validator item w with
  | (Normal customValidation, w1) =>
      let errors :=
        BaseDataProcessor.structural_errors item
        ++ (if ValidationResult.isValid customValidation then []
            else ValidationResult.errors customValidation) in
      (Normal (ValidationResult.mk (List.length errors =? 0)%nat errors), w1)
  | (Throw t, w1) => (Throw t, w1)
  end.
Proof.
  unfold BaseDataProcessor.validate, bind, ret.
  destruct (validator item w) as [[cv|t] w1]; [|reflexivity].
  destruct (ValidationResult.isValid cv); simpl;
    rewrite ?app_nil_r; reflexivity.
Qed.

(** The four ways a turn of [BaseDataProcessor.process] can go. *)
Lemma base_turn_cases item acc w :
  BaseDataProcessor.processItem validator businessRules item acc w =
  match BaseDataProcessor.validate validator item w with
  | (Normal validation, w1) =>
      if ValidationResult.isValid validation then
        match BaseDataProcessor.applyBusinessRules businessRules item w1 with
        | (Normal processedItem, w2) =>
            (Normal (record acc (Passed processedItem)), w2)
        | (Throw t, w2) => caught item acc t w2
        end
      else
        (Normal (record acc
                   (Failed (ProcessingError.mk item
                              (VStr (join ", " (ValidationResult.errors validation)))
                              "VALIDATION_ERROR"%string))), w1)
  | (Throw t, w1) => caught item acc t w1
  end.
Proof.
  destruct acc as [processed errors].
  unfold BaseDataProcessor.processItem, try_catch, bind, caught, read_message.
  destruct (BaseDataProcessor.validate validator item w) as [[v|t] w1].
  - destruct (ValidationResult.isValid v); simpl.
    + destruct (BaseDataProcessor.applyBusinessRules businessRules item w1)
        as [[y|t] w2]; simpl; [reflexivity|].
      unfold throw, ret. destruct (nullish t); reflexivity.
    + reflexivity.
  - unfold throw, ret. destruct (nullish t); reflexivity.
Qed.

Lemma base_turn_records item acc w acc' w' :
  BaseDataProcessor.processItem validator businessRules item acc w
  = (Normal acc', w') ->
  exists o, base_turn validator businessRules item w o w'
            /\ acc' = record acc o.
Proof.
  rewrite base_turn_cases. unfold caught.
  destruct (BaseDataProcessor.validate validator item w)
    as [[v|t] w1] eqn:Ev.
  - destruct (ValidationResult.isValid v) eqn:Eb.
    + destruct (BaseDataProcessor.applyBusinessRules businessRules item w1)
        as [[y|t] w2] eqn:Er.
      * intros E; injection E as <- <-.
        eexists (Passed _); split; [|reflexivity].
        eapply base_turn_passed; eassumption.
      * destruct (nullish t) eqn:En; intros E; [discriminate E|].
        injection E as <- <-.
        eexists (Failed _); split; [|reflexivity].
        eapply base_turn_rule_fault; eassumption.
    + intros E; injection E as <- <-.
      eexists (Failed _); split; [|reflexivity].
      eapply base_turn_invalid; eassumption.
  - destruct (nullish t) eqn:En; intros E; [discriminate E|].
    injection E as <- <-.
    eexists (Failed _); split; [|reflexivity].
    eapply base_turn_validate_fault; eassumption.
Qed.

Lemma base_turn_complete item acc w o w' :
  base_turn validator businessRules item w o w' ->
  BaseDataProcessor.processItem validator businessRules item acc w
  = (Normal (record acc o), w').
Proof.
  rewrite base_turn_cases. unfold caught.
  intros Ht; inversion Ht as [v w1 Ev Eb|v w1 y w2 Ev Eb Er|t w1 Ev En
                             |v w1 t w2 Ev Eb Er En]; subst;
    rewrite Ev; try rewrite Eb; try rewrite Er; try rewrite En; reflexivity.
Qed.

Lemma base_turn_functional item w o1 w1 o2 w2 :
  base_turn validator businessRules item w o1 w1 ->
  base_turn validator businessRules item w o2 w2 ->
  o1 = o2 /\ w1 = w2.
Proof.
  intros H1 H2.
  apply (base_turn_complete item ([], [])) in H1.
  apply (base_turn_complete item ([], [])) in H2.
  rewrite H1 in H2. inversion H2 as [[Hr Hw]].
  split; [apply record_injective; exact Hr | reflexivity].
Qed.

Lemma base_turn_outcome_of item w o w' :
  base_turn validator businessRules item w o w' ->
  base_outcome_of businessRules item o.
Proof.
  intros Ht; inversion Ht; subst; simpl; try reflexivity.
  eexists _, _; eassumption.
Qed.

Lemma base_process_inv data w r w' :
  BaseDataProcessor.process validator businessRules data w = (Normal r, w') ->
  exists acc w2,
    BaseDataProcessor.forOf validator businessRules data ([], [])
      (snd (Date_now w)) = (Normal acc, w2)
    /\ ProcessingResult.processed r = fst acc
    /\ ProcessingResult.errors r = snd acc
    /\ ProcessingSummary.total (ProcessingResult.summary r) = List.length data
    /\ ProcessingSummary.successful (ProcessingResult.summary r)
       = List.length (fst acc)
    /\ ProcessingSummary.failed (ProcessingResult.summary r)
       = List.length (snd acc).
Proof.
  unfold BaseDataProcessor.process. intros E.
  apply bind_Normal_inv in E. destruct E as (t0 & w1 & E0 & E).
  rewrite now_Normal in E0. inversion E0; subst t0 w1; clear E0.
  apply bind_Normal_inv in E. destruct E as (acc & w2 & Eloop & E).
  apply bind_Normal_inv in E. destruct E as (t1 & w3 & _ & E).
  inversion E; subst; clear E.
  exists acc, w2. simpl. repeat split; try reflexivity. exact Eloop.
Qed.

Lemma base_process_total data w :
  (forall acc w1, exists acc' w2,
      BaseDataProcessor.forOf validator businessRules data acc w1
      = (Normal acc', w2)) ->
  exists r w',
    BaseDataProcessor.process validator businessRules data w = (Normal r, w').
Proof.
  intros Hloop. unfold BaseDataProcessor.process.
  destruct (Hloop ([], []) (snd (Date_now w))) as (acc & w2 & E1).
  rewrite (bind_Normal _ _ _ _ _ (now_Normal w)).
  rewrite (bind_Normal _ _ _ _ _ E1).
  rewrite (bind_Normal _ _ _ _ _ (now_Normal w2)).
  eexists _, _. reflexivity.
Qed.

(** The outcomes of a run of [process]. *)
Lemma base_process_outcomes data w r w' :
  BaseDataProcessor.process validator businessRules data w = (Normal r, w') ->
  exists os : list (Outcome T),
    Forall2 (base_outcome_of businessRules) data os
    /\ ProcessingResult.processed r = passed os
    /\ ProcessingResult.errors r = failed os.
Proof.
  intros Hp. apply base_process_inv in Hp.
  destruct Hp as (acc & w2 & Hloop & Hpr & Her & _).
  rewrite base_forOf_turns in Hloop.
  apply (turns_outcomes _ _ base_turn_records) in Hloop.
  destruct Hloop as (os & Hos & ->). exists os. simpl in *.
  split; [|auto].
  eapply Forall2_weaken; [|exact Hos].
  intros item o (wi & wj & Ht). eapply base_turn_outcome_of; exact Ht.
Qed.

Lemma base_process_counts data w r w' :
  BaseDataProcessor.process validator businessRules data w = (Normal r, w') ->
  summary_consistent data r.
Proof.
  intros Hp.
  destruct (base_process_outcomes _ _ _ _ Hp) as (os & Hos & Hpr & Her).
  apply base_process_inv in Hp.
  destruct Hp as (acc & w2 & _ & Hpr' & Her' & Ht & Hs & Hf).
  unfold summary_consistent; simpl.
  rewrite Ht, Hs, Hf, <- Hpr', <- Her', Hpr, Her.
  repeat split; try reflexivity.
  rewrite passed_length_failed_length.
  symmetry; eapply Forall2_length_eq; eassumption.
Qed.

(** The turn of the item at a given place of the input of [process]. *)
Lemma base_process_at pre item post w r w' :
  BaseDataProcessor.process validator businessRules (pre ++ item :: post) w
  = (Normal r, w') ->
  exists os1 o os2 wi wj,
    BaseDataProcessor.forOf validator businessRules pre ([], [])
      (snd (Date_now w)) = (Normal (passed os1, failed os1), wi)
    /\ base_turn validator businessRules item wi o wj
    /\ ProcessingResult.processed r = passed (os1 ++ o :: os2)
    /\ ProcessingResult.errors r = failed (os1 ++ o :: os2)
    /\ List.length os1 = List.length pre
    /\ List.length os2 = List.length post.
Proof.
  intros Hp. apply base_process_inv in Hp.
  destruct Hp as (acc & w2 & Hloop & Hpr & Her & _).
  rewrite base_forOf_turns in Hloop.
  apply (turns_at _ _ base_turn_records) in Hloop.
  destruct Hloop as (os1 & o & os2 & wi & wj & Epre & Ht & -> & L1 & L2).
  exists os1, o, os2, wi, wj. rewrite base_forOf_turns.
  simpl in *. auto 10.
Qed.




End BaseFacts.

(** ** [createEventProcessor] *)

Section EventFacts.
Context `{Host} {T : Type} `{BaseEvent.ops T}.
Variable validator : T -> M ValidationResult.t.

Lemma event_forOf_turns data acc w :
  createEventProcessor.forOf validator data acc w
  = turns (createEventProcessor.processItem validator) data acc w.
Proof.
  revert acc w; induction data as [|item rest IH]; intros acc w; simpl.
  - reflexivity.
  - unfold bind.
    destruct (createEventProcessor.processItem validator item acc w)
      as [[acc1|t] w1]; [apply IH | reflexivity].
Qed.

Lemma event_validate_cases item w :
  createEventProcessor.validate validator item w =
  match validator item w with
  | (Normal customValidation, w1) =>
      let errors :=
        createEventProcessor.structural_errors item
        ++ (if ValidationResult.isValid customValidation then []
            else ValidationResult.errors customValidation) in
      (Normal (ValidationResult.mk (List.length errors =? 0)%nat errors), w1)
  | (Throw t, w1) => (Throw t, w1)
  end.
Proof.
  unfold createEventProcessor.validate, bind, ret.
  destruct (validator item w) as [[cv|t] w1]; [|reflexivity].
  destruct (ValidationResult.isValid cv); simpl;
    rewrite ?app_nil_r; reflexivity.
Qed.

(** The three ways a turn of the event processor's [process] can go. *)
Lemma event_turn_cases item acc w :
  createEventProcessor.processItem validator item acc w =
  match validator item w with
  | (Normal validation, w1) =>
      if ValidationResult.isValid validation then
        (Normal (record acc (Passed item)), w1)
      else
        (Normal (record acc
                   (Failed (ProcessingError.mk item
                              (VStr (join ", " (ValidationResult.errors validation)))
                              "VALIDATION_ERROR"%string))), w1)
  | (Throw t, w1) => caught item acc t w1
  end.
Proof.
  destruct acc as [processed errors].
  unfold createEventProcessor.processItem, try_catch, bind, caught,
    read_message.
  destruct (validator item w) as [[v|t] w1].
  - destruct (ValidationResult.isValid v); reflexivity.
  - unfold throw, ret. destruct (nullish t); reflexivity.
Qed.

Lemma event_turn_records item acc w acc' w' :
  createEventProcessor.processItem validator item acc w = (Normal acc', w') ->
  exists o, event_turn validator item w o w' /\ acc' = record acc o.
Proof.
  rewrite event_turn_cases. unfold caught.
  destruct (validator item w) as [[v|t] w1] eqn:Ev.
  - destruct (ValidationResult.isValid v) eqn:Eb;
      intros E; injection E as <- <-.
    + eexists (Passed _); split; [|reflexivity].
      eapply event_turn_passed; eassumption.
    + eexists (Failed _); split; [|reflexivity].
      eapply event_turn_invalid; eassumption.
  - destruct (nullish t) eqn:En; intros E; [discriminate E|].
    injection E as <- <-.
    eexists (Failed _); split; [|reflexivity].
    eapply event_turn_validator_fault; eassumption.
Qed.

Lemma event_turn_complete item acc w o w' :
  event_turn validator item w o w' ->
  createEventProcessor.processItem validator item acc w
  = (Normal (record acc o), w').
Proof.
  rewrite event_turn_cases. unfold caught.
  intros Ht; inversion Ht as [v w1 Ev Eb|v w1 Ev Eb|t w1 Ev En]; subst;
    rewrite Ev; try rewrite Eb; try rewrite En; reflexivity.
Qed.

Lemma event_turn_functional item w o1 w1 o2 w2 :
  event_turn validator item w o1 w1 ->
  event_turn validator item w o2 w2 ->
  o1 = o2 /\ w1 = w2.
Proof.
  intros H1 H2.
  apply (event_turn_complete item ([], [])) in H1.
  apply (event_turn_complete item ([], [])) in H2.
  rewrite H1 in H2. inversion H2 as [[Hr Hw]].
  split; [apply record_injective; exact Hr | reflexivity].
Qed.

Lemma event_turn_outcome_of item w o w' :
  event_turn validator item w o w' -> event_outcome_of item o.
Proof. intros Ht; inversion Ht; subst; reflexivity. Qed.

Lemma event_process_inv data w r w' :
  createEventProcessor.process validator data w = (Normal r, w') ->
  exists acc w2,
    createEventProcessor.forOf validator data ([], []) (snd (Date_now w))
    = (Normal acc, w2)
    /\ ProcessingResult.processed r = fst acc
    /\ ProcessingResult.errors r = snd acc
    /\ ProcessingSummary.total (ProcessingResult.summary r) = List.length data
    /\ ProcessingSummary.successful (ProcessingResult.summary r)
       = List.length (fst acc)
    /\ ProcessingSummary.failed (ProcessingResult.summary r)
       = List.length (snd acc).
Proof.
  unfold createEventProcessor.process. intros E.
  apply bind_Normal_inv in E. destruct E as (t0 & w1 & E0 & E).
  rewrite now_Normal in E0. inversion E0; subst t0 w1; clear E0.
  apply bind_Normal_inv in E. destruct E as (acc & w2 & Eloop & E).
  apply bind_Normal_inv in E. destruct E as (t1 & w3 & _ & E).
  inversion E; subst; clear E.
  exists acc, w2. simpl. repeat split; try reflexivity. exact Eloop.
Qed.

Lemma event_process_total data w :
  (forall acc w1, exists acc' w2,
      createEventProcessor.forOf validator data acc w1 = (Normal acc', w2)) ->
  exists r w',
    createEventProcessor.process validator data w = (Normal r, w').
Proof.
  intros Hloop. unfold createEventProcessor.process.
  destruct (Hloop ([], []) (snd (Date_now w))) as (acc & w2 & E1).
  rewrite (bind_Normal _ _ _ _ _ (now_Normal w)).
  rewrite (bind_Normal _ _ _ _ _ E1).
  rewrite (bind_Normal _ _ _ _ _ (now_Normal w2)).
  eexists _, _. reflexivity.
Qed.

Lemma event_process_outcomes data w r w' :
  createEventProcessor.process validator data w = (Normal r, w') ->
  exists os : list (Outcome T),
    Forall2 event_outcome_of data os
    /\ ProcessingResult.processed r = passed os
    /\ ProcessingResult.errors r = failed os.
Proof.
  intros Hp. apply event_process_inv in Hp.
  destruct Hp as (acc & w2 & Hloop & Hpr & Her & _).
  rewrite event_forOf_turns in Hloop.
  apply (turns_outcomes _ _ event_turn_records) in Hloop.
  destruct Hloop as (os & Hos & ->). exists os. simpl in *.
  split; [|auto].
  eapply Forall2_weaken; [|exact Hos].
  intros item o (wi & wj & Ht). eapply event_turn_outcome_of; exact Ht.
Qed.

Lemma event_process_counts data w r w' :
  createEventProcessor.process validator data w = (Normal r, w') ->
  summary_consistent data r.
Proof.
  intros Hp.
  destruct (event_process_outcomes _ _ _ _ Hp) as (os & Hos & Hpr & Her).
  apply event_process_inv in Hp.
  destruct Hp as (acc & w2 & _ & Hpr' & Her' & Ht & Hs & Hf).
  unfold summary_consistent; simpl.
  rewrite Ht, Hs, Hf, <- Hpr', <- Her', Hpr, Her.
  repeat split; try reflexivity.
  rewrite passed_length_failed_length.
  symmetry; eapply Forall2_length_eq; eassumption.
Qed.

Lemma event_process_at pre item post w r w' :
  createEventProcessor.process validator (pre ++ item :: post) w
  = (Normal r, w') ->
  exists os1 o os2 wi wj,
    createEventProcessor.forOf validator pre ([], []) (snd (Date_now w))
    = (Normal (passed os1, failed os1), wi)
    /\ event_turn validator item wi o wj
    /\ ProcessingResult.processed r = passed (os1 ++ o :: os2)
    /\ ProcessingResult.errors r = failed (os1 ++ o :: os2)
    /\ List.length os1 = List.length pre
    /\ List.length os2 = List.length post.
Proof.
  intros Hp. apply event_process_inv in Hp.
  destruct Hp as (acc & w2 & Hloop & Hpr & Her & _).
  rewrite event_forOf_turns in Hloop.
  apply (turns_at _ _ event_turn_records) in Hloop.
  destruct Hloop as (os1 & o & os2 & wi & wj & Epre & Ht & -> & L1 & L2).
  exists os1, o, os2, wi, wj. rewrite event_forOf_turns.
  simpl in *. auto 10.
Qed.


End EventFacts.

(** ** [transform] *)

Section TransformFacts.
Context `{Host} {T U : Type}.

(** The two [transform] methods are the same function. *)
Lemma event_transform_eq (data : list T) (f : T -> M U) w :
  createEventProcessor.transform data f w
  = BaseDataProcessor.transform data f w.
Proof.
  revert w; induction data as [|x rest IH]; intros w; simpl.
  - reflexivity.
  - unfold bind. destruct (f x w) as [[u|t] w1]; [|reflexivity].
    rewrite IH. reflexivity.
Qed.

Lemma transform_Normal_inv (data : list T) (f : T -> M U) :
  forall w us w',
    BaseDataProcessor.transform data f w = (Normal us, w') ->
    Forall2 (fun x u => exists wi wj, f x wi = (Normal u, wj)) data us.
Proof.
  induction data as [|x rest IH]; intros w us w' E; simpl in E.
  - inversion E; constructor.
  - apply bind_Normal_inv in E. destruct E as (u & w1 & Eu & E).
    apply bind_Normal_inv in E. destruct E as (us' & w2 & Eus & E).
    inversion E; subst. constructor; [exists w, w1; exact Eu|].
    eapply IH; exact Eus.
Qed.

Lemma transform_pure (g : T -> U) (data : list T) w :
  BaseDataProcessor.transform data (fun x => ret (g x)) w
  = (Normal (map g data), w).
Proof.
  induction data as [|x rest IH]; simpl.
  - reflexivity.
  - unfold bind at 1. unfold ret at 1. unfold bind. rewrite IH. reflexivity.
Qed.

Lemma transform_propagates (pre : list T) x (post : list T) (f : T -> M U) :
  forall w us wi t wj,
    BaseDataProcessor.transform pre f w = (Normal us, wi) ->
    f x wi = (Throw t, wj) ->
    BaseDataProcessor.transform (pre ++ x :: post) f w = (Throw t, wj).
Proof.
  induction pre as [|p pre IH]; intros w us wi t wj Epre Ex; simpl in *.
  - inversion Epre; subst. rewrite (bind_Throw _ _ _ _ _ Ex). reflexivity.
  - apply bind_Normal_inv in Epre. destruct Epre as (u & w1 & Eu & E).
    apply bind_Normal_inv in E. destruct E as (us' & w2 & Eus & E).
    inversion E; subst.
    rewrite (bind_Normal _ _ _ _ _ Eu).
    rewrite (bind_Throw _ _ _ _ _ (IH _ _ _ _ _ Eus Ex)). reflexivity.
Qed.

Lemma Forall2_nth_error {A B} (R : A -> B -> Prop) l1 l2 :
  Forall2 R l1 l2 ->
  forall i a, nth_error l1 i = Some a ->
              exists b, nth_error l2 i = Some b /\ R a b.
Proof.
  induction 1 as [|a0 b0 l1 l2 Hab Hl IH]; intros i a Hi.
  - destruct i; discriminate Hi.
  - destruct i as [|i]; simpl in *.
    + inversion Hi; subst. exists b0; auto.
    + apply IH; exact Hi.
Qed.
End TransformFacts.

(** ** Faults and the outcome of a turn *)

Section FaultFacts.
Context `{Host} {T : Type}.

Lemma base_fault_outcome `{Entity.ops T}
  (validator : T -> M ValidationResult.t)
  (businessRules : list (BusinessRule.t T)) item w o w' t wj :
  base_turn validator businessRules item w o w' ->
  base_fault validator businessRules item w t wj ->
  o = Failed (ProcessingError.mk item (message_of t) "PROCESSING_ERROR"%string)
  /\ nullish t = false /\ wj = w'.
Proof.
  intros Ht Hf.
  apply (base_turn_complete _ _ item ([], [])) in Ht.
  rewrite base_turn_cases in Ht.
  assert (Hc : caught item ([], []) t wj
               = (Normal (record ([], []) o), w')).
  { destruct Hf as [Ev|(v & w1 & Ev & Eb & Hr)].
    - rewrite Ev in Ht. exact Ht.
    - apply applyRules_rule_faults in Hr.
      fold (BaseDataProcessor.applyBusinessRules businessRules item w1) in Hr.
      rewrite Ev, Eb, Hr in Ht. exact Ht. }
  unfold caught in Hc. destruct (nullish t); [discriminate Hc|].
  inversion Hc as [[Hr Hw]].
  split; [|split; reflexivity].
  symmetry. apply record_injective. simpl. rewrite <- Hr. reflexivity.
Qed.

Lemma base_turn_processing_error `{Entity.ops T}
  (validator : T -> M ValidationResult.t)
  (businessRules : list (BusinessRule.t T)) item w o w' e :
  base_turn validator businessRules item w o w' ->
  o = Failed e ->
  ProcessingError.code e = "PROCESSING_ERROR"%string ->
  exists t, base_fault validator businessRules item w t w'.
Proof.
  intros Ht -> Hc.
  inversion Ht as [v w1 Ev Eb He|v w1 y w2 Ev Eb Er|t w1 Ev En He
                  |v w1 t w2 Ev Eb Er En He]; subst.
  - discriminate Hc.
  - exists t. left. exact Ev.
  - exists t. right. exists v, w1. repeat split; try assumption.
    apply applyRules_rule_faults. exact Er.
Qed.

Lemma event_fault_outcome
  (validator : T -> M ValidationResult.t) item w o w' t wj :
  event_turn validator item w o w' ->
  validator item w = (Throw t, wj) ->
  o = Failed (ProcessingError.mk item (message_of t) "PROCESSING_ERROR"%string)
  /\ nullish t = false /\ wj = w'.
Proof.
  intros Ht Ev.
  inversion Ht as [v w1 Ev' Eb|v w1 Ev' Eb|t' w1 Ev' En]; subst;
    rewrite Ev in Ev'; inversion Ev'; subst.
  auto.
Qed.

Lemma event_turn_processing_error
  (validator : T -> M ValidationResult.t) item w o w' e :
  event_turn validator item w o w' ->
  o = Failed e ->
  ProcessingError.code e = "PROCESSING_ERROR"%string ->
  exists t, validator item w = (Throw t, w').
Proof.
  intros Ht -> Hc.
  inversion Ht as [v w1 Ev Eb He|v w1 Ev Eb|t w1 Ev En He]; subst.
  - discriminate Hc.
  - exists t. exact Ev.
Qed.
End FaultFacts.
(** * The claims *)

(** ** Partition and order *)

(** C1.  Whenever [process] returns a result, for [BaseDataProcessor] and
    for the processors of [createEventProcessor] alike, the turns of the
    loop have one outcome per input item, in input order; an outcome is
    either the processed value of its item or an error entry holding its
    item; [processed] is the list of the former and [errors] the list of
    the latter, both in the order of the input.  So every input item is
    in exactly one of the two, and each keeps the input order. *)
Theorem process_partitions_in_order :
  (forall (H : Host) (T : Type) (E : Entity.ops T)
          (validator : T -> M ValidationResult.t)
          (businessRules : list (BusinessRule.t T))
          (data : list T) (w : World) r w',
      BaseDataProcessor.process validator businessRules data w = (Normal r, w') ->
      exists os : list (Outcome T),
        Forall2 (base_outcome_of businessRules) data os
        /\ ProcessingResult.processed r = passed os
        /\ ProcessingResult.errors r = failed os)
  /\
  (forall (H : Host) (T : Type) (E : BaseEvent.ops T)
          (validator : T -> M ValidationResult.t)
          (data : list T) (w : World) r w',
      createEventProcessor.process validator data w = (Normal r, w') ->
      exists os : list (Outcome T),
        Forall2 event_outcome_of data os
        /\ ProcessingResult.processed r = passed os
        /\ ProcessingResult.errors r = failed os).
Proof.
  split; intros H T E validator.
  - intros businessRules. apply base_process_outcomes.
  - apply event_process_outcomes.
Qed.

Lemma process_partitions_in_order_witness :
  (exists r (w' : @World tickingClock),
      UserProcessor.process (H := tickingClock) [john; jane] 0%Z = (Normal r, w')
      /\ exists os : list (Outcome User.t),
           Forall2
             (base_outcome_of (H := tickingClock) UserProcessor.businessRules)
             [john; jane] os
           /\ ProcessingResult.processed r = passed os
           /\ ProcessingResult.errors r = failed os)
  /\
  (exists r (w' : @World tickingClock),
      userLoginProcessor.process (H := tickingClock) loginEvents 0%Z
      = (Normal r, w')
      /\ exists os : list (Outcome userLoginEvent.t),
           Forall2 event_outcome_of loginEvents os
           /\ ProcessingResult.processed r = passed os
           /\ ProcessingResult.errors r = failed os).
Proof.
  split; eexists _, _; (split; [lazy; reflexivity|]).
  - eapply (proj1 process_partitions_in_order tickingClock User.t _
              UserProcessor.validator UserProcessor.businessRules
              [john; jane] 0%Z).
    lazy; reflexivity.
  - eapply (proj2 process_partitions_in_order tickingClock userLoginEvent.t _
              userLoginValidator loginEvents 0%Z).
    lazy; reflexivity.
Defined.

(** ** The summary *)

(** C2.  For both kinds of processor, a result of [process] has
    [total = data.length], [successful = processed.length],
    [failed = errors.length] and [successful + failed = total]; and on the
    empty input [process] returns a result with the three counts 0 and
    both lists empty. *)
Theorem process_summary_counts :
  (forall (H : Host) (T : Type) (E : Entity.ops T)
          (validator : T -> M ValidationResult.t)
          (businessRules : list (BusinessRule.t T)),
      (forall (data : list T) (w : World) r w',
          BaseDataProcessor.process validator businessRules data w
          = (Normal r, w') ->
          summary_consistent data r)
      /\ (forall w : World, exists r w',
             BaseDataProcessor.process validator businessRules [] w
             = (Normal r, w')
             /\ empty_result r))
  /\
  (forall (H : Host) (T : Type) (E : BaseEvent.ops T)
          (validator : T -> M ValidationResult.t),
      (forall (data : list T) (w : World) r w',
          createEventProcessor.process validator data w = (Normal r, w') ->
          summary_consistent data r)
      /\ (forall w : World, exists r w',
             createEventProcessor.process validator [] w = (Normal r, w')
             /\ empty_result r)).
Proof.
  split; intros H T E validator.
  - intros businessRules. split.
    + apply base_process_counts.
    + intros w.
      destruct (base_process_total validator businessRules [] w)
        as (r & w' & Hp).
      { intros acc w1. exists acc, w1. reflexivity. }
      exists r, w'. split; [exact Hp|].
      apply base_process_inv in Hp.
      destruct Hp as (acc & w2 & Hloop & Hpr' & Her' & Ht & Hs & Hf).
      simpl in Hloop. inversion Hloop; subst acc.
      unfold empty_result. rewrite Hpr', Her', Ht, Hs, Hf. simpl. auto.
  - split.
    + apply event_process_counts.
    + intros w.
      destruct (event_process_total validator [] w) as (r & w' & Hp).
      { intros acc w1. exists acc, w1. reflexivity. }
      exists r, w'. split; [exact Hp|].
      apply event_process_inv in Hp.
      destruct Hp as (acc & w2 & Hloop & Hpr' & Her' & Ht & Hs & Hf).
      simpl in Hloop. inversion Hloop; subst acc.
      unfold empty_result. rewrite Hpr', Her', Ht, Hs, Hf. simpl. auto.
Qed.

Lemma process_summary_counts_witness :
  (exists r (w' : @World tickingClock),
      UserProcessor.process (H := tickingClock) [john; jane] 0%Z = (Normal r, w')
      /\ summary_consistent [john; jane] r)
  /\
  (exists r (w' : @World tickingClock),
      userLoginProcessor.process (H := tickingClock) loginEvents 0%Z
      = (Normal r, w')
      /\ summary_consistent loginEvents r).
Proof.
  split; eexists _, _; (split; [lazy; reflexivity|]).
  - eapply (proj1 (proj1 process_summary_counts tickingClock User.t _
                     UserProcessor.validator UserProcessor.businessRules)
              [john; jane] 0%Z).
    lazy; reflexivity.
  - eapply (proj1 (proj2 process_summary_counts tickingClock userLoginEvent.t _
                     userLoginValidator)
              loginEvents 0%Z).
    lazy; reflexivity.
Defined.

(** ** Validation errors *)

(** In [BaseDataProcessor.process] the item at any place of the input gets
    a [VALIDATION_ERROR] entry exactly when [validate] finds it invalid,
    and the entry's message is the joined error strings of [validate]. *)
Lemma base_validation_error_iff `{Host} {T : Type} `{Entity.ops T}
  (validator : T -> M ValidationResult.t)
  (businessRules : list (BusinessRule.t T)) pre item post w r w' :
  BaseDataProcessor.process validator businessRules (pre ++ item :: post) w
  = (Normal r, w') ->
  exists os1 o os2 wi,
    BaseDataProcessor.forOf validator businessRules pre ([], [])
      (snd (Date_now w)) = (Normal (passed os1, failed os1), wi)
    /\ List.length os1 = List.length pre
    /\ List.length os2 = List.length post
    /\ ProcessingResult.processed r = passed (os1 ++ o :: os2)
    /\ ProcessingResult.errors r = failed (os1 ++ o :: os2)
    /\ ((exists e, o = Failed e
                   /\ ProcessingError.code e = "VALIDATION_ERROR"%string)
        <-> (exists validation wj,
                BaseDataProcessor.validate validator item wi
                = (Normal validation, wj)
                /\ ValidationResult.isValid validation = false))
    /\ (forall validation wj,
           BaseDataProcessor.validate validator item wi
           = (Normal validation, wj) ->
           ValidationResult.isValid validation = false ->
           o = Failed (ProcessingError.mk item
                         (VStr (join ", " (ValidationResult.errors validation)))
                         "VALIDATION_ERROR"%string)).
Proof.
  intros Hp. apply base_process_at in Hp.
  destruct Hp as (os1 & o & os2 & wi & wj & Epre & Ht & Hpr & Her & L1 & L2).
  exists os1, o, os2, wi. repeat (split; [assumption|]).
  split; [split|].
  - intros (e & -> & Hc).
    inversion Ht as [v w1 Ev Eb He|v w1 y w2 Ev Eb Er|t w1 Ev En He
                    |v w1 t w2 Ev Eb Er En He]; subst;
      try discriminate Hc.
    exists v, wj. auto.
  - intros (v & w1 & Ev & Eb).
    inversion Ht as [v' w1' Ev' Eb' He|v' w1' y w2 Ev' Eb' Er|t w1' Ev' En He
                    |v' w1' t w2 Ev' Eb' Er En He]; subst;
      rewrite Ev in Ev'; inversion Ev'; subst; try congruence.
    eexists; split; reflexivity.
  - intros v w1 Ev Eb.
    inversion Ht as [v' w1' Ev' Eb' He|v' w1' y w2 Ev' Eb' Er|t w1' Ev' En He
                    |v' w1' t w2 Ev' Eb' Er En He]; subst;
      rewrite Ev in Ev'; inversion Ev'; subst; try congruence.
Qed.

(** C3.  The event processors do not do this: their [process] asks the
    caller's validator, not [validate].  A login event whose [id] is the
    empty string, or is missing, is invalid for [validate], with
    [ID is required]; yet [userLoginProcessor] pushes it to [processed],
    and [genericEventProcessor] records it with [VALIDATION_ERROR] and the
    empty message.  And with a validator that answers invalid without
    error strings, a sound event is valid for [validate] and still gets a
    [VALIDATION_ERROR] entry. *)
Theorem event_process_skips_structural_checks :
  Forall
    (fun id =>
       let event := loginWithId id in
       userLoginProcessor.validate (H := tickingClock) event 0%Z
       = (Normal (ValidationResult.mk false ["ID is required"%string]), 0%Z)
       /\ userLoginProcessor.process (H := tickingClock) [event] 0%Z
          = (Normal (ProcessingResult.mk [event] []
                       (ProcessingSummary.mk 1 1 0 1)), 2%Z)
       /\ genericEventProcessor.validate (H := tickingClock) event 0%Z
          = (Normal (ValidationResult.mk false ["ID is required"%string]), 0%Z)
       /\ genericEventProcessor.process (H := tickingClock) [event] 0%Z
          = (Normal (ProcessingResult.mk []
                       [ProcessingError.mk event (VStr "")
                          "VALIDATION_ERROR"%string]
                       (ProcessingSummary.mk 1 0 1 1)), 2%Z))
    [VStr ""; VUndefined]
  /\ (let event := loginWithId (VStr "1") in
      createEventProcessor.validate (H := tickingClock) silentValidator
        event 0%Z
      = (Normal (ValidationResult.mk true []), 0%Z)
      /\ createEventProcessor.process (H := tickingClock) silentValidator
           [event] 0%Z
         = (Normal (ProcessingResult.mk []
                      [ProcessingError.mk event (VStr "")
                         "VALIDATION_ERROR"%string]
                      (ProcessingSummary.mk 1 0 1 1)), 2%Z)).
Proof.
  split.
  - repeat constructor; vm_compute; reflexivity.
  - split; vm_compute; reflexivity.
Qed.

(** ** Processing errors *)

(** C4, as stated, fails: with a validator that throws and no rules at
    all, the item gets a [PROCESSING_ERROR] entry although no rule was
    applied to it. *)
Lemma processing_error_without_rule_fault :
  BaseDataProcessor.process (H := tickingClock) throwingValidator [] [john] 0%Z
  = (Normal (ProcessingResult.mk []
               [ProcessingError.mk john (VStr "boom") "PROCESSING_ERROR"%string]
               (ProcessingSummary.mk 1 0 1 1)), 2%Z)
  /\ ~ (exists (w : @World tickingClock) t w',
           rule_faults (T := User.t) [] john w t w').
Proof.
  split.
  - vm_compute; reflexivity.
  - intros (w & t & w' & pre & rule & post & y & wi & E & _).
    destruct pre; discriminate E.
Qed.

(** C4, amended.  In a run of [process] that returns a result, the item
    at any place of the input gets a [PROCESSING_ERROR] entry exactly when
    its turn has a fault: [validate] throws (the validator, for an event
    processor), or the item is valid and one of the rules throws on the
    value threaded to it.  The entry then holds the item and the [message]
    of the thrown value, and the item adds nothing to [processed]. *)
Theorem processing_error_iff_fault :
  (forall (H : Host) (T : Type) (E : Entity.ops T)
          (validator : T -> M ValidationResult.t)
          (businessRules : list (BusinessRule.t T))
          (pre : list T) (item : T) (post : list T) (w : World) r w',
      BaseDataProcessor.process validator businessRules (pre ++ item :: post) w
      = (Normal r, w') ->
      exists os1 o os2 wi,
        BaseDataProcessor.forOf validator businessRules pre ([], [])
          (snd (Date_now w)) = (Normal (passed os1, failed os1), wi)
        /\ List.length os1 = List.length pre
        /\ List.length os2 = List.length post
        /\ ProcessingResult.processed r = passed (os1 ++ o :: os2)
        /\ ProcessingResult.errors r = failed (os1 ++ o :: os2)
        /\ ((exists e, o = Failed e
                       /\ ProcessingError.code e = "PROCESSING_ERROR"%string)
            <-> (exists t wj, base_fault validator businessRules item wi t wj))
        /\ (forall t wj,
               base_fault validator businessRules item wi t wj ->
               o = Failed (ProcessingError.mk item (message_of t)
                             "PROCESSING_ERROR"%string)))
  /\
  (forall (H : Host) (T : Type) (E : BaseEvent.ops T)
          (validator : T -> M ValidationResult.t)
          (pre : list T) (item : T) (post : list T) (w : World) r w',
      createEventProcessor.process validator (pre ++ item :: post) w
      = (Normal r, w') ->
      exists os1 o os2 wi,
        createEventProcessor.forOf validator pre ([], []) (snd (Date_now w))
        = (Normal (passed os1, failed os1), wi)
        /\ List.length os1 = List.length pre
        /\ List.length os2 = List.length post
        /\ ProcessingResult.processed r = passed (os1 ++ o :: os2)
        /\ ProcessingResult.errors r = failed (os1 ++ o :: os2)
        /\ ((exists e, o = Failed e
                       /\ ProcessingError.code e = "PROCESSING_ERROR"%string)
            <-> (exists t wj, validator item wi = (Throw t, wj)))
        /\ (forall t wj,
               validator item wi = (Throw t, wj) ->
               o = Failed (ProcessingError.mk item (message_of t)
                             "PROCESSING_ERROR"%string))).
Proof.
  split; intros H T E validator.
  - intros businessRules pre item post w r w' Hp.
    apply base_process_at in Hp.
    destruct Hp as (os1 & o & os2 & wi & wj & Epre & Ht & Hpr & Her & L1 & L2).
    exists os1, o, os2, wi. repeat (split; [assumption|]).
    split; [split|].
    + intros (e & Ho & Hc).
      destruct (base_turn_processing_error _ _ _ _ _ _ _ Ht Ho Hc) as (t & Hf).
      exists t, wj. exact Hf.
    + intros (t & wk & Hf).
      destruct (base_fault_outcome _ _ _ _ _ _ _ _ Ht Hf) as (-> & _ & _).
      eexists; split; reflexivity.
    + intros t wk Hf.
      destruct (base_fault_outcome _ _ _ _ _ _ _ _ Ht Hf) as (-> & _ & _).
      reflexivity.
  - intros pre item post w r w' Hp.
    apply event_process_at in Hp.
    destruct Hp as (os1 & o & os2 & wi & wj & Epre & Ht & Hpr & Her & L1 & L2).
    exists os1, o, os2, wi. repeat (split; [assumption|]).
    split; [split|].
    + intros (e & Ho & Hc).
      destruct (event_turn_processing_error _ _ _ _ _ _ Ht Ho Hc) as (t & Hf).
      exists t, wj. exact Hf.
    + intros (t & wk & Hf).
      destruct (event_fault_outcome _ _ _ _ _ _ _ Ht Hf) as (-> & _ & _).
      eexists; split; reflexivity.
    + intros t wk Hf.
      destruct (event_fault_outcome _ _ _ _ _ _ _ Ht Hf) as (-> & _ & _).
      reflexivity.
Qed.

Lemma processing_error_iff_fault_witness :
  exists r (w' : @World tickingClock),
    BaseDataProcessor.process (H := tickingClock) UserProcessor.validator
      [UserProcessor.normalizeEmail; failingRule] ([jane] ++ john :: [jane])
      0%Z = (Normal r, w')
    /\ exists os1 o os2 (wi : @World tickingClock),
        BaseDataProcessor.forOf (H := tickingClock) UserProcessor.validator
          [UserProcessor.normalizeEmail; failingRule] [jane] ([], [])
          (snd (Date_now (Host := tickingClock) 0%Z))
        = (Normal (passed os1, failed os1), wi)
        /\ List.length os1 = List.length [jane]
        /\ List.length os2 = List.length [jane]
        /\ ProcessingResult.processed r = passed (os1 ++ o :: os2)
        /\ ProcessingResult.errors r = failed (os1 ++ o :: os2)
        /\ ((exists e, o = Failed e
                       /\ ProcessingError.code e = "PROCESSING_ERROR"%string)
            <-> (exists t wj,
                    base_fault (H := tickingClock) UserProcessor.validator
                      [UserProcessor.normalizeEmail; failingRule] john wi t wj))
        /\ (forall t wj,
               base_fault (H := tickingClock) UserProcessor.validator
                 [UserProcessor.normalizeEmail; failingRule] john wi t wj ->
               o = Failed (ProcessingError.mk john (message_of t)
                             "PROCESSING_ERROR"%string)).
Proof.
  eexists _, _. split; [lazy; reflexivity|].
  eapply (proj1 processing_error_iff_fault tickingClock User.t _
            UserProcessor.validator
            [UserProcessor.normalizeEmail; failingRule]
            [jane] john [jane] 0%Z).
  lazy; reflexivity.
Defined.

(** ** [process] and thrown values *)




(** ** Rules in declaration order *)

(** C6.  When [validate] finds the item valid and the rules, taken in
    declaration order and each fed the value returned by the one before,
    lead from the item to [y], the turn of the item pushes [y] to
    [processed] and nothing to [errors]; and so in a run of [process] the
    item at any place of the input contributes [y], at its place, to
    [processed].  For the user pipeline: [normalizeEmail] turns [john]
    into [johnNormalized], [updateTimestamp] then sets the date read from
    the clock, and [process] returns that last value. *)
Theorem rules_applied_in_declaration_order :
  (forall (H : Host) (T : Type) (E : Entity.ops T)
          (validator : T -> M ValidationResult.t)
          (businessRules : list (BusinessRule.t T))
          (item : T) (acc : Acc T) (w : World) validation w1 y w2,
      BaseDataProcessor.validate validator item w = (Normal validation, w1) ->
      ValidationResult.isValid validation = true ->
      threaded businessRules item w1 y w2 ->
      BaseDataProcessor.processItem validator businessRules item acc w
      = (Normal (fst acc ++ [y], snd acc), w2))
  /\
  (forall (H : Host) (T : Type) (E : Entity.ops T)
          (validator : T -> M ValidationResult.t)
          (businessRules : list (BusinessRule.t T))
          (pre : list T) (item : T) (post : list T) (w : World) r w',
      BaseDataProcessor.process validator businessRules (pre ++ item :: post) w
      = (Normal r, w') ->
      exists os1 os2 wi,
        BaseDataProcessor.forOf validator businessRules pre ([], [])
          (snd (Date_now w)) = (Normal (passed os1, failed os1), wi)
        /\ List.length os1 = List.length pre
        /\ List.length os2 = List.length post
        /\ forall validation w1 y w2,
            BaseDataProcessor.validate validator item wi
            = (Normal validation, w1) ->
            ValidationResult.isValid validation = true ->
            threaded businessRules item w1 y w2 ->
            ProcessingResult.processed r = passed os1 ++ y :: passed os2
            /\ ProcessingResult.errors r = failed os1 ++ failed os2)
  /\
  (forall date : Z,
      BusinessRule.apply (H := tickingClock) UserProcessor.normalizeEmail
        john date = (Normal johnNormalized, date)
      /\ BusinessRule.apply (H := tickingClock) UserProcessor.updateTimestamp
           johnNormalized date = (Normal (johnStamped date), (date + 1)%Z))
  /\
  UserProcessor.process (H := tickingClock) [john] 0%Z
  = (Normal (ProcessingResult.mk [johnStamped 1] []
               (ProcessingSummary.mk 1 1 0 2)), 3%Z).
Proof.
  split; [|split; [|split]].
  - intros H T E validator businessRules item acc w v w1 y w2 Ev Eb Ht.
    rewrite base_turn_cases, Ev, Eb.
    apply applyRules_threaded in Ht.
    unfold BaseDataProcessor.applyBusinessRules. rewrite Ht. reflexivity.
  - intros H T E validator businessRules pre item post w r w' Hp.
    apply base_process_at in Hp.
    destruct Hp as (os1 & o & os2 & wi & wj & Epre & Ht & Hpr & Her & L1 & L2).
    exists os1, os2, wi. repeat (split; [assumption|]).
    intros v w1 y w2 Ev Eb Hy.
    assert (Ht' : base_turn validator businessRules item wi (Passed y) w2).
    { eapply base_turn_passed; [exact Ev | exact Eb |].
      apply applyRules_threaded. exact Hy. }
    destruct (base_turn_functional _ _ _ _ _ _ _ _ Ht Ht') as (-> & _).
    rewrite Hpr, Her, passed_app, failed_app. split; reflexivity.
  - intros date. split; reflexivity.
  - vm_compute; reflexivity.
Qed.

Lemma rules_applied_in_declaration_order_witness :
  BaseDataProcessor.processItem (H := tickingClock) UserProcessor.validator
    UserProcessor.businessRules john ([jane], []) 5%Z
  = (Normal ([jane] ++ [johnStamped 5], []), 6%Z).
Proof.
  apply (proj1 rules_applied_in_declaration_order tickingClock User.t _
           UserProcessor.validator UserProcessor.businessRules
           john ([jane], []) 5%Z (ValidationResult.mk true []) 5%Z
           (johnStamped 5) 6%Z).
  - vm_compute; reflexivity.
  - reflexivity.
  - apply (threaded_cons (H := tickingClock) UserProcessor.normalizeEmail
             [UserProcessor.updateTimestamp] john 5%Z johnNormalized 5%Z).
    + vm_compute; reflexivity.
    + apply (threaded_cons (H := tickingClock) UserProcessor.updateTimestamp
               [] johnNormalized 5%Z (johnStamped 5) 6%Z).
      * vm_compute; reflexivity.
      * apply threaded_nil.
Defined.

(** ** [transform] *)

(** C7.  [transform] takes the items and the mapper only, no validator
    and no rules.  When it returns, the result has the length of the input
    and its i-th element is what the mapper returned on the i-th item;
    with a mapper that is a function [g] it returns [map g data]; and when
    the mapper throws on an item, the items before it having been mapped,
    [transform] throws the same value: nothing is caught.  The event
    processors' [transform] is the same function. *)
Theorem transform_maps_in_order :
  forall (H : Host) (T U : Type),
    (forall (data : list T) (f : T -> M U) (w : World) us w',
        BaseDataProcessor.transform data f w = (Normal us, w') ->
        List.length us = List.length data
        /\ forall i x, nth_error data i = Some x ->
                       exists u wi wj,
                         nth_error us i = Some u /\ f x wi = (Normal u, wj))
    /\ (forall (g : T -> U) (data : list T) (w : World),
           BaseDataProcessor.transform data (fun x => ret (g x)) w
           = (Normal (map g data), w))
    /\ (forall (pre : list T) (x : T) (post : list T) (f : T -> M U)
               (w : World) us wi t wj,
           BaseDataProcessor.transform pre f w = (Normal us, wi) ->
           f x wi = (Throw t, wj) ->
           BaseDataProcessor.transform (pre ++ x :: post) f w = (Throw t, wj))
    /\ (forall (data : list T) (f : T -> M U) (w : World),
           createEventProcessor.transform data f w
           = BaseDataProcessor.transform data f w).
Proof.
  intros H T U. split; [|split; [|split]].
  - intros data f w us w' E.
    pose proof (transform_Normal_inv data f w us w' E) as HF.
    split.
    + symmetry. eapply Forall2_length_eq; exact HF.
    + intros i x Hi.
      destruct (Forall2_nth_error _ _ _ HF i x Hi) as (u & Hu & wi & wj & Hf).
      exists u, wi, wj. split; assumption.
  - apply transform_pure.
  - intros pre x post f. apply transform_propagates.
  - apply event_transform_eq.
Qed.

Lemma transform_maps_in_order_witness :
  (List.length [User.id john; User.id jane] = List.length [john; jane]
   /\ forall i x, nth_error [john; jane] i = Some x ->
                  exists u (wi wj : @World tickingClock),
                    nth_error [User.id john; User.id jane] i = Some u
                    /\ ret (H := tickingClock) (User.id x) wi = (Normal u, wj))
  /\ BaseDataProcessor.transform (H := tickingClock) ([john] ++ jane :: [john])
       (fun user => if String.eqb (User.name user) ""
                    then throw (ErrorObject "no name")
                    else ret (User.name user)) 0%Z
     = (Throw (ErrorObject "no name"), 0%Z).
Proof.
  split.
  - apply (proj1 (transform_maps_in_order tickingClock User.t Value)
             [john; jane] (fun user => ret (User.id user)) 0%Z
             [User.id john; User.id jane] 0%Z).
    vm_compute; reflexivity.
  - apply (proj1 (proj2 (proj2 (transform_maps_in_order tickingClock User.t
                                  string)))
             [john] jane [john] _ 0%Z ["John Doe"%string] 0%Z).
    + vm_compute; reflexivity.
    + vm_compute; reflexivity.
Defined.

(** ** [validate] *)

(** C8.  With a validator that neither reads nor changes the host state,
    [validate] does neither: on an item it has one completion, whatever
    the host state, and leaves the state as it was.  So two calls in a row
    on the same item give the same outcome. *)
Theorem validate_idempotent :
  (forall (H : Host) (T : Type) (E : Entity.ops T)
          (validator : T -> M ValidationResult.t),
      pure_callback validator ->
      pure_callback (BaseDataProcessor.validate validator)
      /\ forall item w,
          (r1 <- BaseDataProcessor.validate validator item ;;
           r2 <- BaseDataProcessor.validate validator item ;;
           ret (r1, r2)) w
          = (r <- BaseDataProcessor.validate validator item ;; ret (r, r)) w)
  /\
  (forall (H : Host) (T : Type) (E : BaseEvent.ops T)
          (validator : T -> M ValidationResult.t),
      pure_callback validator ->
      pure_callback (createEventProcessor.validate validator)
      /\ forall item w,
          (r1 <- createEventProcessor.validate validator item ;;
           r2 <- createEventProcessor.validate validator item ;;
           ret (r1, r2)) w
          = (r <- createEventProcessor.validate validator item ;; ret (r, r)) w).
Proof.
  split; intros H T E validator Hpure.
  - assert (Hv : pure_callback (BaseDataProcessor.validate validator)).
    { intros item. destruct (Hpure item) as (c & Hc).
      destruct c as [cv|t]; eexists; intros w;
        rewrite base_validate_cases, Hc; reflexivity. }
    split; [exact Hv|].
    intros item w. destruct (Hv item) as (c & Hc).
    unfold bind. rewrite Hc. destruct c as [v|t]; [|reflexivity].
    rewrite Hc. reflexivity.
  - assert (Hv : pure_callback (createEventProcessor.validate validator)).
    { intros item. destruct (Hpure item) as (c & Hc).
      destruct c as [cv|t]; eexists; intros w;
        rewrite event_validate_cases, Hc; reflexivity. }
    split; [exact Hv|].
    intros item w. destruct (Hv item) as (c & Hc).
    unfold bind. rewrite Hc. destruct c as [v|t]; [|reflexivity].
    rewrite Hc. reflexivity.
Qed.

Lemma validate_idempotent_witness :
  pure_callback (UserProcessor.validate (H := tickingClock))
  /\ pure_callback (userLoginProcessor.validate (H := tickingClock)).
Proof.
  split.
  - apply (proj1 validate_idempotent tickingClock User.t _
             UserProcessor.validator).
    intros user. eexists. intros w. reflexivity.
  - apply (proj2 validate_idempotent tickingClock userLoginEvent.t _
             userLoginValidator).
    intros event. eexists. intros w. reflexivity.
Defined.



(** C10.  The structural checks test truthiness.  The empty string is
    falsy, as are [undefined], [null], [0] and [NaN]; and when a field
    that a structural check reads is falsy, present or not, [validate]
    (whenever the validator returns) answers invalid with that field's
    [... is required] string among the errors. *)
Theorem structural_checks_test_truthiness :
  (truthy (VStr "") = false /\ truthy VUndefined = false
   /\ truthy VNull = false /\ truthy (VNum 0) = false /\ truthy VNaN = false)
  /\
  (forall (H : Host) (T : Type) (E : Entity.ops T)
          (validator : T -> M ValidationResult.t) (item : T) (w : World)
          customValidation w',
      validator item w = (Normal customValidation, w') ->
      exists validation,
        BaseDataProcessor.validate validator item w = (Normal validation, w')
        /\ (truthy (Entity.id item) = false ->
            ValidationResult.isValid validation = false
            /\ In "ID is required"%string (ValidationResult.errors validation))
        /\ (truthy (Entity.createdAt item) = false ->
            ValidationResult.isValid validation = false
            /\ In "Created date is required"%string
                 (ValidationResult.errors validation))
        /\ (truthy (Entity.updatedAt item) = false ->
            ValidationResult.isValid validation = false
            /\ In "Updated date is required"%string
                 (ValidationResult.errors validation)))
  /\
  (forall (H : Host) (T : Type) (E : BaseEvent.ops T)
          (validator : T -> M ValidationResult.t) (item : T) (w : World)
          customValidation w',
      validator item w = (Normal customValidation, w') ->
      exists validation,
        createEventProcessor.validate validator item w = (Normal validation, w')
        /\ (truthy (BaseEvent.id item) = false ->
            ValidationResult.isValid validation = false
            /\ In "ID is required"%string (ValidationResult.errors validation))
        /\ (truthy (BaseEvent.eventType item) = false ->
            ValidationResult.isValid validation = false
            /\ In "Event type is required"%string
                 (ValidationResult.errors validation))).
Proof.
  split; [repeat split; reflexivity|]. split.
  - intros H T E validator item w cv w' Ec.
    eexists. split; [rewrite base_validate_cases, Ec; reflexivity|].
    cbv zeta. simpl ValidationResult.isValid. simpl ValidationResult.errors.
    assert (Hin : forall s rest,
               In s (BaseDataProcessor.structural_errors item) ->
               (List.length (BaseDataProcessor.structural_errors item ++ rest)
                =? 0)%nat = false
               /\ In s (BaseDataProcessor.structural_errors item ++ rest)).
    { intros s rest Hs. split; [|apply in_or_app; left; exact Hs].
      destruct (BaseDataProcessor.structural_errors item); [destruct Hs|].
      reflexivity. }
    unfold BaseDataProcessor.structural_errors, push_if in *.
    split; [|split]; intros Hf; apply Hin; rewrite Hf; simpl;
      repeat (destruct (truthy _); simpl; auto 6).
  - intros H T E validator item w cv w' Ec.
    eexists. split; [rewrite event_validate_cases, Ec; reflexivity|].
    cbv zeta. simpl ValidationResult.isValid. simpl ValidationResult.errors.
    assert (Hin : forall s rest,
               In s (createEventProcessor.structural_errors item) ->
               (List.length (createEventProcessor.structural_errors item ++ rest)
                =? 0)%nat = false
               /\ In s (createEventProcessor.structural_errors item ++ rest)).
    { intros s rest Hs. split; [|apply in_or_app; left; exact Hs].
      destruct (createEventProcessor.structural_errors item); [destruct Hs|].
      reflexivity. }
    unfold createEventProcessor.structural_errors, push_if in *.
    split; intros Hf; apply Hin; rewrite Hf; simpl;
      repeat (destruct (truthy _); simpl; auto 6).
Qed.

Lemma structural_checks_test_truthiness_witness :
  (exists validation,
      UserProcessor.validate (H := tickingClock) userWithEmptyId 0%Z
      = (Normal validation, 0%Z)
      /\ ValidationResult.isValid validation = false
      /\ In "ID is required"%string (ValidationResult.errors validation))
  /\
  (exists validation,
      userLoginProcessor.validate (H := tickingClock)
        (userLoginEvent.mk (VStr "1") (VStr "") (VStr "user1") (VDate 1000))
        0%Z
      = (Normal validation, 0%Z)
      /\ ValidationResult.isValid validation = false
      /\ In "Event type is required"%string
           (ValidationResult.errors validation)).
Proof.
  split.
  - destruct (proj1 (proj2 structural_checks_test_truthiness) tickingClock
                User.t _ UserProcessor.validator userWithEmptyId 0%Z
                (ValidationResult.mk true []) 0%Z eq_refl)
      as (validation & Ev & Hid & _).
    exists validation. split; [exact Ev|]. apply Hid. reflexivity.
  - destruct (proj2 (proj2 structural_checks_test_truthiness) tickingClock
                userLoginEvent.t _ userLoginValidator
                (userLoginEvent.mk (VStr "1") (VStr "") (VStr "user1")
                   (VDate 1000)) 0%Z
                (ValidationResult.mk true []) 0%Z eq_refl)
      as (validation & Ev & _ & Hty).
    exists validation. split; [exact Ev|]. apply Hty. reflexivity.
Defined.

(** * Further properties *)

(** ** Processors whose callbacks are functions *)

Section PureCallbacks.
Context `{Host} {T : Type}.

Lemma event_forOf_returns (validator : T -> M ValidationResult.t) v :
  returns validator v ->
  forall data acc w,
    createEventProcessor.forOf validator data acc w
    = (Normal
         (fst acc ++ filter (fun x => ValidationResult.isValid (v x)) data,
          snd acc
          ++ map (fun x => validation_entry x (v x))
               (filter (fun x => negb (ValidationResult.isValid (v x))) data)),
       w).
Proof.
  intros Hv data. induction data as [|item rest IH]; intros acc w; simpl.
  - rewrite !app_nil_r. destruct acc; reflexivity.
  - unfold bind. rewrite event_turn_cases, Hv.
    destruct (ValidationResult.isValid (v item)); simpl; rewrite IH; simpl;
      rewrite <- app_assoc; reflexivity.
Qed.

Lemma base_validate_returns `{Entity.ops T}
  (validator : T -> M ValidationResult.t) v :
  returns validator v ->
  returns (BaseDataProcessor.validate validator) (base_validation v).
Proof.
  intros Hv item w. rewrite base_validate_cases, Hv. reflexivity.
Qed.

Lemma applyRules_returns `{Entity.ops T}
  (businessRules : list (BusinessRule.t T)) gs :
  rules_return businessRules gs ->
  returns (BaseDataProcessor.applyRules businessRules) (run_rules gs).
Proof.
  unfold rules_return, run_rules.
  induction 1 as [|rule g rules gs Hg Hrest IH]; intros x w; simpl.
  - reflexivity.
  - rewrite (bind_Normal _ _ _ _ _ (Hg x w)). apply IH.
Qed.

Lemma base_forOf_returns `{Entity.ops T}
  (validator : T -> M ValidationResult.t)
  (businessRules : list (BusinessRule.t T)) bv g :
  returns (BaseDataProcessor.validate validator) bv ->
  returns (BaseDataProcessor.applyRules businessRules) g ->
  forall data acc w,
    BaseDataProcessor.forOf validator businessRules data acc w
    = (Normal
         (fst acc
          ++ map g (filter (fun x => ValidationResult.isValid (bv x)) data),
          snd acc
          ++ map (fun x => validation_entry x (bv x))
               (filter (fun x => negb (ValidationResult.isValid (bv x)))
                  data)),
       w).
Proof.
  intros Hv Hr data. induction data as [|item rest IH]; intros acc w; simpl.
  - rewrite !app_nil_r. destruct acc; reflexivity.
  - unfold bind. rewrite base_turn_cases, Hv.
    destruct (ValidationResult.isValid (bv item)); simpl.
    + unfold BaseDataProcessor.applyBusinessRules.
      rewrite Hr. rewrite IH; simpl.
      rewrite <- app_assoc; reflexivity.
    + rewrite IH; simpl. rewrite <- app_assoc; reflexivity.
Qed.
End PureCallbacks.

Lemma event_process_closed `{Host} {T : Type}
  (validator : T -> M ValidationResult.t) (v : T -> ValidationResult.t) :
  returns validator v ->
  forall (data : list T) (w : World),
    createEventProcessor.process validator data w
    = (Normal
         (result_of data
            (filter (fun x => ValidationResult.isValid (v x)) data)
            (map (fun x => validation_entry x (v x))
               (filter (fun x => negb (ValidationResult.isValid (v x)))
                  data))
            (fst (Date_now (snd (Date_now w))) - fst (Date_now w))),
       snd (Date_now (snd (Date_now w)))).
Proof.
  intros Hv data w.
  unfold createEventProcessor.process.
  rewrite (bind_Normal _ _ _ _ _ (now_Normal w)).
  rewrite (bind_Normal _ _ _ _ _
             (event_forOf_returns validator v Hv data ([], []) _)).
  rewrite (bind_Normal _ _ _ _ _ (now_Normal _)).
  reflexivity.
Qed.

Lemma base_process_closed `{Host} {T : Type} `{Entity.ops T}
  (validator : T -> M ValidationResult.t)
  (businessRules : list (BusinessRule.t T))
  (v : T -> ValidationResult.t) (gs : list (T -> T)) :
  returns validator v ->
  rules_return businessRules gs ->
  forall (data : list T) (w : World),
    BaseDataProcessor.process validator businessRules data w
    = (Normal
         (result_of data
            (map (run_rules gs)
               (filter
                  (fun x => ValidationResult.isValid (base_validation v x))
                  data))
            (map (fun x => validation_entry x (base_validation v x))
               (filter
                  (fun x =>
                     negb (ValidationResult.isValid (base_validation v x)))
                  data))
            (fst (Date_now (snd (Date_now w))) - fst (Date_now w))),
       snd (Date_now (snd (Date_now w)))).
Proof.
  intros Hv Hr data w.
  unfold BaseDataProcessor.process.
  rewrite (bind_Normal _ _ _ _ _ (now_Normal w)).
  rewrite (bind_Normal _ _ _ _ _
             (base_forOf_returns validator businessRules _ _
                (base_validate_returns _ _ Hv) (applyRules_returns _ _ Hr)
                data ([], []) _)).
  rewrite (bind_Normal _ _ _ _ _ (now_Normal _)).
  reflexivity.
Qed.

(** X1.  An event processor whose validator is a function [v] keeps, in
    order and unchanged, the events that [v] finds valid, and gives every
    other event, in order, a [VALIDATION_ERROR] entry with the joined
    error strings of [v]; it always returns, never with a
    [PROCESSING_ERROR], and reads the clock twice. *)
Theorem event_process_filters :
  forall (H : Host) (T : Type) (E : BaseEvent.ops T)
         (validator : T -> M ValidationResult.t) (v : T -> ValidationResult.t),
    returns validator v ->
    forall (data : list T) (w : World),
      createEventProcessor.process validator data w
      = (Normal
           (result_of data
              (filter (fun x => ValidationResult.isValid (v x)) data)
              (map (fun x => validation_entry x (v x))
                 (filter (fun x => negb (ValidationResult.isValid (v x)))
                    data))
              (fst (Date_now (snd (Date_now w))) - fst (Date_now w))),
         snd (Date_now (snd (Date_now w)))).
Proof.
  intros H T E validator v. apply event_process_closed.
Qed.

(** X2.  A [BaseDataProcessor] whose validator and rules are functions
    returns, in order, the items that [validate] finds valid, each passed
    through the rules in declaration order, and gives every other item,
    in order, a [VALIDATION_ERROR] entry with the joined error strings of
    [validate]; it always returns, never with a [PROCESSING_ERROR]. *)
Theorem base_process_filters_and_maps :
  forall (H : Host) (T : Type) (E : Entity.ops T)
         (validator : T -> M ValidationResult.t)
         (businessRules : list (BusinessRule.t T))
         (v : T -> ValidationResult.t) (gs : list (T -> T)),
    returns validator v ->
    rules_return businessRules gs ->
    forall (data : list T) (w : World),
      BaseDataProcessor.process validator businessRules data w
      = (Normal
           (result_of data
              (map (run_rules gs)
                 (filter
                    (fun x => ValidationResult.isValid (base_validation v x))
                    data))
              (map (fun x => validation_entry x (base_validation v x))
                 (filter
                    (fun x =>
                       negb (ValidationResult.isValid (base_validation v x)))
                    data))
              (fst (Date_now (snd (Date_now w))) - fst (Date_now w))),
         snd (Date_now (snd (Date_now w)))).
Proof.
  intros H T E validator businessRules v gs. apply base_process_closed.
Qed.

Lemma event_process_filters_witness :
  userLoginProcessor.process (H := tickingClock) loginEvents 0%Z
  = (Normal
       (result_of loginEvents
          (filter (fun x => ValidationResult.isValid (login_validation x))
             loginEvents)
          (map (fun x => validation_entry x (login_validation x))
             (filter
                (fun x => negb (ValidationResult.isValid (login_validation x)))
                loginEvents))
          1%Z),
     2%Z).
Proof.
  apply (event_process_filters tickingClock userLoginEvent.t _
           userLoginValidator login_validation).
  intros event w. reflexivity.
Defined.

Lemma base_process_filters_and_maps_witness :
  ProductProcessor.process (H := tickingClock) (H0 := integerAmounts)
    [blankProduct] 0%Z
  = (Normal
       (result_of [blankProduct]
          (map (run_rules [withTrimmedName (H := integerAmounts);
                           withRoundedPrice (H := integerAmounts)])
             (filter
                (fun x =>
                   ValidationResult.isValid
                     (base_validation product_validation x))
                [blankProduct]))
          (map (fun x => validation_entry x
                           (base_validation product_validation x))
             (filter
                (fun x =>
                   negb (ValidationResult.isValid
                           (base_validation product_validation x)))
                [blankProduct]))
          1%Z),
     2%Z).
Proof.
  apply (base_process_filters_and_maps tickingClock Product.t _
           ProductProcessor.validator ProductProcessor.businessRules
           product_validation
           [withTrimmedName (H := integerAmounts);
            withRoundedPrice (H := integerAmounts)]).
  - intros product w. reflexivity.
  - repeat constructor.
Defined.

(** ** Batches *)

(** X3.  With callbacks that are functions, a batch can be split: the
    [processed] and [errors] lists of [process] on [a ++ b] are those of
    [a] followed by those of [b], for both kinds of processor. *)
Theorem process_of_concatenation :
  (forall (H : Host) (T : Type) (E : Entity.ops T)
          (validator : T -> M ValidationResult.t)
          (businessRules : list (BusinessRule.t T))
          (v : T -> ValidationResult.t) (gs : list (T -> T)),
      returns validator v ->
      rules_return businessRules gs ->
      forall (a b : list T) (w : World),
      exists ra wa rb wb rab wab,
        BaseDataProcessor.process validator businessRules a w = (Normal ra, wa)
        /\ BaseDataProcessor.process validator businessRules b w
           = (Normal rb, wb)
        /\ BaseDataProcessor.process validator businessRules (a ++ b) w
           = (Normal rab, wab)
        /\ ProcessingResult.processed rab
           = ProcessingResult.processed ra ++ ProcessingResult.processed rb
        /\ ProcessingResult.errors rab
           = ProcessingResult.errors ra ++ ProcessingResult.errors rb)
  /\
  (forall (H : Host) (T : Type) (E : BaseEvent.ops T)
          (validator : T -> M ValidationResult.t) (v : T -> ValidationResult.t),
      returns validator v ->
      forall (a b : list T) (w : World),
      exists ra wa rb wb rab wab,
        createEventProcessor.process validator a w = (Normal ra, wa)
        /\ createEventProcessor.process validator b w = (Normal rb, wb)
        /\ createEventProcessor.process validator (a ++ b) w
           = (Normal rab, wab)
        /\ ProcessingResult.processed rab
           = ProcessingResult.processed ra ++ ProcessingResult.processed rb
        /\ ProcessingResult.errors rab
           = ProcessingResult.errors ra ++ ProcessingResult.errors rb).
Proof.
  split.
  - intros H T E validator businessRules v gs Hv Hr a b w.
    do 6 eexists.
    rewrite !(base_process_closed validator businessRules v gs Hv Hr).
    repeat (split; [reflexivity|]).
    unfold result_of; simpl.
    rewrite !filter_app, !map_app. split; reflexivity.
  - intros H T E validator v Hv a b w.
    do 6 eexists.
    rewrite !(event_process_closed validator v Hv).
    repeat (split; [reflexivity|]).
    unfold result_of; simpl.
    rewrite !filter_app, !map_app. split; reflexivity.
Qed.

Lemma process_of_concatenation_witness :
  exists ra (wa : @World tickingClock) rb (wb : @World tickingClock)
         rab (wab : @World tickingClock),
    userLoginProcessor.process (H := tickingClock) loginEvents 0%Z
    = (Normal ra, wa)
    /\ userLoginProcessor.process (H := tickingClock)
         [loginWithId (VStr "")] 0%Z = (Normal rb, wb)
    /\ userLoginProcessor.process (H := tickingClock)
         (loginEvents ++ [loginWithId (VStr "")]) 0%Z = (Normal rab, wab)
    /\ ProcessingResult.processed rab
       = ProcessingResult.processed ra ++ ProcessingResult.processed rb
    /\ ProcessingResult.errors rab
       = ProcessingResult.errors ra ++ ProcessingResult.errors rb.
Proof.
  apply (proj2 process_of_concatenation tickingClock userLoginEvent.t _
           userLoginValidator login_validation).
  intros event w. reflexivity.
Defined.

(** ** The event processors of the file *)

Lemma login_valid_iff (event : userLoginEvent.t) :
  ValidationResult.isValid (login_validation event)
  = truthy (userLoginEvent.userId event)
    && truthy (userLoginEvent.timestamp event).
Proof.
  unfold login_validation, push_if.
  destruct (truthy (userLoginEvent.userId event)),
           (truthy (userLoginEvent.timestamp event)); reflexivity.
Qed.

Lemma product_added_valid_iff `{Numbers} (event : productAddedEvent.t) :
  ValidationResult.isValid (product_added_validation event)
  = truthy (productAddedEvent.productId event)
    && negb (le_zero (productAddedEvent.quantity event)).
Proof.
  unfold product_added_validation, push_if.
  destruct (truthy (productAddedEvent.productId event)),
           (le_zero (productAddedEvent.quantity event)); reflexivity.
Qed.

Lemma filter_negb_ext {A} (f g : A -> bool) (l : list A) :
  (forall x, f x = g x) ->
  filter (fun x => negb (f x)) l = filter (fun x => negb (g x)) l.
Proof. intros E. apply filter_ext. intros x. rewrite E. reflexivity. Qed.

(** X4.  [userLoginProcessor.process] keeps exactly the events whose
    [userId] and [timestamp] are truthy, whatever their [id] and
    [eventType]; the others get [VALIDATION_ERROR] entries, in order.
    [validate] asks for all four fields: the two disagree exactly on the
    events with [userId] and [timestamp] but without [id] or
    [eventType]. *)
Theorem userLogin_process_admits :
  forall (H : Host),
    (forall (data : list userLoginEvent.t) (w : World),
      exists r w',
        userLoginProcessor.process data w = (Normal r, w')
        /\ ProcessingResult.processed r
           = filter (fun event => truthy (userLoginEvent.userId event)
                                  && truthy (userLoginEvent.timestamp event))
               data
        /\ map ProcessingError.item (ProcessingResult.errors r)
           = filter (fun event =>
                       negb (truthy (userLoginEvent.userId event)
                             && truthy (userLoginEvent.timestamp event)))
               data
        /\ Forall (fun e => ProcessingError.code e = "VALIDATION_ERROR"%string)
             (ProcessingResult.errors r))
    /\ (forall (event : userLoginEvent.t) (w : World),
         exists validation,
           userLoginProcessor.validate event w = (Normal validation, w)
           /\ ValidationResult.isValid validation
              = event_sound event
                && (truthy (userLoginEvent.userId event)
                    && truthy (userLoginEvent.timestamp event))).
Proof.
  intros H. split.
  - intros data w. do 2 eexists.
    unfold userLoginProcessor.process.
    rewrite (event_process_closed userLoginValidator login_validation
               (fun event w => eq_refl)).
    split; [reflexivity|]. unfold result_of; simpl.
    split; [apply filter_ext, login_valid_iff|].
    split.
    + rewrite map_map. simpl. rewrite map_id.
      apply filter_negb_ext, login_valid_iff.
    + apply Forall_forall. intros e He.
      apply in_map_iff in He. destruct He as (x & <- & _). reflexivity.
  - intros event w. eexists.
    unfold userLoginProcessor.validate.
    rewrite event_validate_cases. split; [reflexivity|].
    unfold event_sound, createEventProcessor.structural_errors, push_if.
    simpl. unfold push_if.
    destruct (truthy (userLoginEvent.id event)),
             (truthy (userLoginEvent.eventType event)),
             (truthy (userLoginEvent.userId event)),
             (truthy (userLoginEvent.timestamp event)); reflexivity.
Qed.

(** X5.  [productAddProcessor.process] keeps exactly the events with a
    truthy [productId] whose [quantity <= 0] test fails, whatever their
    [id] and [eventType], and gives the others [VALIDATION_ERROR]
    entries, in order. *)
Theorem productAdd_process_admits :
  forall (H : Host) (N : Numbers) (data : list productAddedEvent.t)
         (w : World),
  exists r w',
    productAddProcessor.process data w = (Normal r, w')
    /\ ProcessingResult.processed r
       = filter (fun event =>
                   truthy (productAddedEvent.productId event)
                   && negb (le_zero (productAddedEvent.quantity event)))
           data
    /\ map ProcessingError.item (ProcessingResult.errors r)
       = filter (fun event =>
                   negb (truthy (productAddedEvent.productId event)
                         && negb (le_zero (productAddedEvent.quantity event))))
           data
    /\ Forall (fun e => ProcessingError.code e = "VALIDATION_ERROR"%string)
         (ProcessingResult.errors r).
Proof.
  intros H N data w. do 2 eexists.
  unfold productAddProcessor.process.
  rewrite (event_process_closed productAddedValidator
             product_added_validation (fun event w => eq_refl)).
  split; [reflexivity|]. unfold result_of; simpl.
  split; [apply filter_ext, product_added_valid_iff|].
  split.
  - rewrite map_map. simpl. rewrite map_id.
    apply filter_negb_ext, product_added_valid_iff.
  - apply Forall_forall. intros e He.
    apply in_map_iff in He. destruct He as (x & <- & _). reflexivity.
Qed.

(** X6.  [genericEventProcessor.process] keeps exactly the events that
    its [validate] accepts, those with truthy [id] and [eventType]; every
    other event gets a [VALIDATION_ERROR] entry whose message is the empty
    string, while [validate] names the missing fields. *)
Theorem generic_process_agrees_with_validate :
  forall (H : Host) (T : Type) (E : BaseEvent.ops T),
    (forall (data : list T) (w : World),
      exists r w',
        genericEventProcessor.process data w = (Normal r, w')
        /\ ProcessingResult.processed r = filter event_sound data
        /\ ProcessingResult.errors r
           = map (fun event => ProcessingError.mk event (VStr "")
                                 "VALIDATION_ERROR"%string)
               (filter (fun event => negb (event_sound event)) data))
    /\ (forall (event : T) (w : World),
         genericEventProcessor.validate event w
         = (Normal (ValidationResult.mk (event_sound event)
                      (createEventProcessor.structural_errors event)), w)).
Proof.
  intros H T E. split.
  - intros data w. do 2 eexists.
    unfold genericEventProcessor.process.
    rewrite (event_process_closed genericEventProcessor.validator
               (fun event => ValidationResult.mk (event_sound event) [])
               (fun event w => eq_refl)).
    split; [reflexivity|]. unfold result_of; simpl.
    split; reflexivity.
  - intros event w. unfold genericEventProcessor.validate.
    rewrite event_validate_cases. simpl.
    unfold event_sound, createEventProcessor.structural_errors, push_if.
    destruct (truthy (BaseEvent.id event)),
             (truthy (BaseEvent.eventType event)); reflexivity.
Qed.

(** ** [transform], composed *)

(** X7.  [transform] on [pre ++ post] maps [pre], then maps [post] from
    the host state that left, and returns the two results joined; so the
    mapper runs once per item, from left to right, and a throw in [pre]
    ends the map before [post] is touched. *)
Theorem transform_of_concatenation :
  forall (H : Host) (T U : Type) (pre post : list T) (f : T -> M U)
         (w : World),
    BaseDataProcessor.transform (pre ++ post) f w
    = (us <- BaseDataProcessor.transform pre f ;;
       vs <- BaseDataProcessor.transform post f ;;
       ret (us ++ vs)) w
    /\ createEventProcessor.transform (pre ++ post) f w
       = (us <- createEventProcessor.transform pre f ;;
          vs <- createEventProcessor.transform post f ;;
          ret (us ++ vs)) w.
Proof.
  intros H T U pre post f.
  assert (Hb : forall w,
             BaseDataProcessor.transform (pre ++ post) f w
             = (us <- BaseDataProcessor.transform pre f ;;
                vs <- BaseDataProcessor.transform post f ;;
                ret (us ++ vs)) w).
  { induction pre as [|x pre IH]; intros w; simpl.
    - unfold bind, ret.
      destruct (BaseDataProcessor.transform post f w) as [[vs|t] w1];
        reflexivity.
    - unfold bind in *. destruct (f x w) as [[u|t] w1]; [|reflexivity].
      rewrite IH.
      destruct (BaseDataProcessor.transform pre f w1) as [[us|t] w2];
        [|reflexivity].
      unfold ret.
      destruct (BaseDataProcessor.transform post f w2) as [[vs|t] w3];
        reflexivity. }
  intros w. split; [apply Hb|].
  rewrite (event_transform_eq (pre ++ post) f w), Hb. unfold bind.
  rewrite (event_transform_eq pre f w).
  destruct (BaseDataProcessor.transform pre f w) as [[us|t] w1];
    [|reflexivity].
  rewrite (event_transform_eq post f w1). reflexivity.
Qed.

(** X8.  Two [transform] calls with mappers that are functions fuse:
    mapping with [f] and then the result with [g] is mapping with the
    composition. *)
Theorem transform_fuses :
  forall (H : Host) (T U V : Type) (f : T -> U) (g : U -> V)
         (data : list T) (w : World),
    (us <- BaseDataProcessor.transform data (fun x => ret (f x)) ;;
     BaseDataProcessor.transform us (fun u => ret (g u))) w
    = BaseDataProcessor.transform data (fun x => ret (g (f x))) w.
Proof.
  intros H T U V f g data w.
  rewrite (bind_Normal _ _ _ _ _ (transform_pure f data w)).
  rewrite !transform_pure, map_map. reflexivity.
Qed.

(** ** Strings: [toLowerCase], [trim] and [includes('@')] *)

Lemma toLowerCase_ascii_idem (c : ascii) :
  toLowerCase_ascii (toLowerCase_ascii c) = toLowerCase_ascii c.
Proof. destruct c as [[] [] [] [] [] [] [] []]; vm_compute; reflexivity. Qed.

Lemma isWhiteSpace_toLowerCase_ascii (c : ascii) :
  isWhiteSpace (toLowerCase_ascii c) = isWhiteSpace c.
Proof. destruct c as [[] [] [] [] [] [] [] []]; vm_compute; reflexivity. Qed.

Lemma toLowerCase_idem (s : string) :
  toLowerCase (toLowerCase s) = toLowerCase s.
Proof.
  induction s as [|c s IH]; simpl; [reflexivity|].
  rewrite toLowerCase_ascii_idem, IH. reflexivity.
Qed.

Lemma trimStart_toLowerCase (s : string) :
  trimStart (toLowerCase s) = toLowerCase (trimStart s).
Proof.
  induction s as [|c s IH]; simpl; [reflexivity|].
  rewrite isWhiteSpace_toLowerCase_ascii.
  destruct (isWhiteSpace c); [exact IH | reflexivity].
Qed.

Lemma trimEnd_toLowerCase (s : string) :
  trimEnd (toLowerCase s) = toLowerCase (trimEnd s).
Proof.
  induction s as [|c s IH]; simpl; [reflexivity|].
  rewrite IH, isWhiteSpace_toLowerCase_ascii.
  destruct (trimEnd s) as [|d r]; simpl; [|reflexivity].
  destruct (isWhiteSpace c); reflexivity.
Qed.

Lemma trim_toLowerCase (s : string) :
  trim (toLowerCase s) = toLowerCase (trim s).
Proof.
  unfold trim. rewrite trimStart_toLowerCase. apply trimEnd_toLowerCase.
Qed.

Lemma trimEnd_idem (s : string) : trimEnd (trimEnd s) = trimEnd s.
Proof.
  induction s as [|c s IH]; simpl; [reflexivity|].
  destruct (trimEnd s) as [|d r] eqn:Er.
  - destruct (isWhiteSpace c) eqn:Ec; simpl; [reflexivity|].
    rewrite Ec. reflexivity.
  - change (trimEnd (String c (String d r)) = String c (String d r)).
    simpl trimEnd at 1. simpl in IH. rewrite IH. reflexivity.
Qed.

(** A string with no white space in front keeps its front under
    [trimEnd]. *)
Lemma trimStart_trimEnd (s : string) :
  trimStart s = s -> trimStart (trimEnd s) = trimEnd s.
Proof.
  destruct s as [|c s]; simpl; [reflexivity|].
  destruct (isWhiteSpace c) eqn:Ec.
  - intros E. exfalso.
    assert (Hl : forall t, String.length (trimStart t) <= String.length t).
    { induction t as [|d t IHt]; simpl; [lia|].
      destruct (isWhiteSpace d); simpl; lia. }
    specialize (Hl s). rewrite E in Hl. simpl in Hl. lia.
  - intros _. destruct (trimEnd s) as [|d r]; simpl; rewrite Ec; reflexivity.
Qed.

Lemma trimStart_idem (s : string) : trimStart (trimStart s) = trimStart s.
Proof.
  induction s as [|c s IH]; simpl; [reflexivity|].
  destruct (isWhiteSpace c) eqn:Ec; [exact IH|].
  simpl. rewrite Ec. reflexivity.
Qed.

Lemma trim_idem (s : string) : trim (trim s) = trim s.
Proof.
  unfold trim.
  rewrite (trimStart_trimEnd (trimStart s) (trimStart_idem s)).
  apply trimEnd_idem.
Qed.

Lemma includes_at_cons (c : ascii) (s : string) :
  includes (String c s) "@" = (Ascii.eqb c "@" || includes s "@").
Proof.
  change (includes (String c s) "@")
    with (String.prefix "@" (String c s) || includes s "@").
  f_equal. cbn [String.prefix].
  destruct (ascii_dec "@" c) as [E|Hne].
  - subst c. destruct s; reflexivity.
  - destruct (Ascii.eqb_spec c "@") as [->|_]; [congruence|].
    reflexivity.
Qed.

Lemma includes_at_nil : includes "" "@" = false.
Proof. reflexivity. Qed.

Lemma includes_at_toLowerCase (s : string) :
  includes s "@" = true -> includes (toLowerCase s) "@" = true.
Proof.
  induction s as [|c s IH]; [discriminate|].
  change (toLowerCase (String c s))
    with (String (toLowerCase_ascii c) (toLowerCase s)).
  rewrite !includes_at_cons. intros E.
  apply orb_true_iff in E. apply orb_true_iff.
  destruct E as [E|E]; [left | right; apply IH; exact E].
  apply Ascii.eqb_eq in E. subst c. reflexivity.
Qed.

Lemma includes_at_trimStart (s : string) :
  includes s "@" = true -> includes (trimStart s) "@" = true.
Proof.
  induction s as [|c s IH]; [discriminate|].
  simpl trimStart. destruct (isWhiteSpace c) eqn:Ec; [|trivial].
  rewrite includes_at_cons. intros E.
  apply orb_true_iff in E. destruct E as [E|E]; [|apply IH; exact E].
  apply Ascii.eqb_eq in E. subst c. discriminate Ec.
Qed.

Lemma includes_at_trimEnd (s : string) :
  includes s "@" = true -> includes (trimEnd s) "@" = true.
Proof.
  induction s as [|c s IH]; [discriminate|].
  rewrite includes_at_cons. intros E. simpl trimEnd.
  apply orb_true_iff in E. destruct E as [E|E].
  - apply Ascii.eqb_eq in E. subst c.
    destruct (trimEnd s); reflexivity.
  - specialize (IH E). destruct (trimEnd s) as [|d r]; [discriminate IH|].
    rewrite includes_at_cons, IH. apply orb_true_r.
Qed.

Lemma includes_at_normalized (s : string) :
  includes s "@" = true -> includes (trim (toLowerCase s)) "@" = true.
Proof.
  intros E. unfold trim.
  apply includes_at_trimEnd, includes_at_trimStart, includes_at_toLowerCase.
  exact E.
Qed.

(** ** [UserProcessor] *)

Lemma filter_all {A} (f : A -> bool) (l : list A) :
  Forall (fun x => f x = true) l ->
  filter f l = l /\ filter (fun x => negb (f x)) l = [].
Proof.
  induction 1 as [|x l Hx Hl [IH1 IH2]]; simpl; [auto|].
  rewrite Hx; simpl. rewrite IH1, IH2. auto.
Qed.

Lemma user_valid_iff (user : User.t) :
  ValidationResult.isValid (base_validation user_validation user)
  = user_valid user.
Proof.
  unfold base_validation, BaseDataProcessor.structural_errors, push_if,
    user_validation, user_valid, sound. simpl.
  destruct (truthy (User.id user)), (truthy (User.createdAt user)),
           (truthy (User.updatedAt user)), (includes (User.email user) "@"),
           (0 <? String.length (User.name user))%nat; reflexivity.
Qed.

Lemma user_valid_stamped (user : User.t) (date : Z) :
  user_valid user = true -> user_valid (stamped user date) = true.
Proof.
  unfold user_valid, sound, stamped.
  cbn [Entity.id Entity.createdAt Entity.updatedAt User.entity User.id
       User.createdAt User.updatedAt User.email User.name truthy].
  intros E.
  apply andb_true_iff in E. destruct E as [E En].
  apply andb_true_iff in E. destruct E as [E Ei].
  apply andb_true_iff in E. destruct E as [E Eu].
  rewrite E, En, (includes_at_normalized _ Ei). reflexivity.
Qed.

Lemma normalize_email_idem (s : string) :
  trim (toLowerCase (trim (toLowerCase s))) = trim (toLowerCase s).
Proof.
  rewrite <- (trim_toLowerCase (toLowerCase s)), trim_idem, toLowerCase_idem.
  reflexivity.
Qed.

Lemma stamped_stamped (user : User.t) (d d' : Z) :
  stamped (stamped user d) d' = withUpdatedAt (stamped user d) d'.
Proof.
  unfold stamped, withUpdatedAt.
  cbn [User.id User.createdAt User.updatedAt User.email User.name User.role].
  rewrite normalize_email_idem. reflexivity.
Qed.

Section UserFacts.
Context `{Host}.

Lemma user_rules_stamp (user : User.t) (w : World) :
  BaseDataProcessor.applyBusinessRules UserProcessor.businessRules user w
  = (Normal (stamped user (fst (Date_now w))), snd (Date_now w)).
Proof.
  unfold BaseDataProcessor.applyBusinessRules, UserProcessor.businessRules.
  simpl. unfold bind, ret, now. simpl.
  destruct (Date_now w) as [date w1]. reflexivity.
Qed.

Lemma user_forOf_stamps (data : list User.t) :
  forall acc w,
    BaseDataProcessor.forOf UserProcessor.validator UserProcessor.businessRules
      data acc w
    = (Normal
         (fst acc ++ fst (stamp_all (filter user_valid data) w),
          snd acc
          ++ map (fun user =>
                    validation_entry user
                      (base_validation user_validation user))
               (filter (fun user => negb (user_valid user)) data)),
       snd (stamp_all (filter user_valid data) w)).
Proof.
  induction data as [|user rest IH]; intros acc w; simpl.
  - rewrite !app_nil_r. destruct acc; reflexivity.
  - unfold bind. rewrite base_turn_cases.
    rewrite (base_validate_returns UserProcessor.validator user_validation
               (fun user w => eq_refl)).
    rewrite user_valid_iff.
    destruct (user_valid user).
    + rewrite user_rules_stamp. cbv beta iota. rewrite IH.
      cbn [filter negb map stamp_all record fst snd].
      destruct (stamp_all (filter user_valid rest) (snd (Date_now w)))
        as [ys w']. cbn [fst snd].
      rewrite <- app_assoc. reflexivity.
    + cbv beta iota. rewrite IH.
      cbn [filter negb map record fst snd].
      rewrite <- app_assoc. reflexivity.
Qed.

Lemma stamp_all_stamped (users : list User.t) :
  forall w,
    Forall2 (fun user y => exists date, y = stamped user date)
      users (fst (stamp_all users w)).
Proof.
  induction users as [|user rest IH]; intros w; simpl; [constructor|].
  specialize (IH (snd (Date_now w))).
  destruct (stamp_all rest (snd (Date_now w))) as [ys w']; simpl in *.
  constructor; [eexists; reflexivity | exact IH].
Qed.

Lemma user_process_stamps (data : list User.t) (w : World) :
  exists duration w',
    UserProcessor.process data w
    = (Normal
         (result_of data
            (fst (stamp_all (filter user_valid data) (snd (Date_now w))))
            (map (fun user =>
                    validation_entry user
                      (base_validation user_validation user))
               (filter (fun user => negb (user_valid user)) data))
            duration),
       w').
Proof.
  unfold UserProcessor.process, BaseDataProcessor.process.
  rewrite (bind_Normal _ _ _ _ _ (now_Normal w)).
  rewrite (bind_Normal _ _ _ _ _ (user_forOf_stamps data ([], []) _)).
  rewrite (bind_Normal _ _ _ _ _ (now_Normal _)).
  eexists _, _. reflexivity.
Qed.
End UserFacts.

(** X9.  [UserProcessor.process] always returns a result, from any host
    state and for any users: its rules and its validator never throw.
    The error entries are those of the users that fail validation, in
    input order, all with code [VALIDATION_ERROR]. *)
Theorem user_process_only_validation_errors :
  forall (H : Host) (data : list User.t) (w : World),
  exists r w',
    UserProcessor.process data w = (Normal r, w')
    /\ map ProcessingError.item (ProcessingResult.errors r)
       = filter (fun user => negb (user_valid user)) data
    /\ Forall (fun e => ProcessingError.code e = "VALIDATION_ERROR"%string)
         (ProcessingResult.errors r).
Proof.
  intros H data w.
  destruct (user_process_stamps data w) as (duration & w' & ->).
  do 2 eexists. split; [reflexivity|]. unfold result_of; simpl. split.
  - rewrite map_map. simpl. apply map_id.
  - apply Forall_forall. intros e He.
    apply in_map_iff in He. destruct He as (x & <- & _). reflexivity.
Qed.

Lemma user_process_normalizes_valid_users_lemma `{Host}
  (data : list User.t) (w : World) :
  exists r w',
    UserProcessor.process data w = (Normal r, w')
    /\ Forall2 (fun user y => exists date, y = stamped user date)
         (filter user_valid data) (ProcessingResult.processed r).
Proof.
  destruct (user_process_stamps data w) as (duration & w' & ->).
  do 2 eexists. split; [reflexivity|]. apply stamp_all_stamped.
Qed.


(** X11.  [UserProcessor.validate] leaves the host state alone and
    accepts a user exactly when its [id], [createdAt] and [updatedAt] are
    truthy, its email contains [@] and its name is not empty; exactly
    then the error list is empty. *)
Theorem user_validate_accepts :
  forall (H : Host) (user : User.t) (w : World),
  exists validation,
    UserProcessor.validate user w = (Normal validation, w)
    /\ ValidationResult.isValid validation = user_valid user
    /\ (ValidationResult.errors validation = [] <-> user_valid user = true).
Proof.
  intros H user w. eexists.
  unfold UserProcessor.validate.
  rewrite (base_validate_returns UserProcessor.validator user_validation
             (fun user w => eq_refl)).
  split; [reflexivity|]. split; [apply user_valid_iff|].
  rewrite <- user_valid_iff.
  unfold base_validation.
  cbn [ValidationResult.isValid ValidationResult.errors].
  generalize (BaseDataProcessor.structural_errors user
              ++ (if ValidationResult.isValid (user_validation user) then []
                  else ValidationResult.errors (user_validation user))).
  intros [|e l]; cbn [List.length Nat.eqb]; split; intros E;
    try reflexivity; discriminate E.
Qed.

(** X12.  What [UserProcessor.process] returns passes through it again:
    processing the [processed] list of a run gives no error, and returns
    the same users with a new [updatedAt] only; the emails are already
    normal. *)
Theorem user_process_accepts_its_output :
  forall (H : Host) (data : list User.t) (w : World) r w',
    UserProcessor.process data w = (Normal r, w') ->
    forall w2 : World,
    exists r2 w3,
      UserProcessor.process (ProcessingResult.processed r) w2
      = (Normal r2, w3)
      /\ ProcessingResult.errors r2 = []
      /\ Forall2 (fun y z => exists date, z = withUpdatedAt y date)
           (ProcessingResult.processed r) (ProcessingResult.processed r2).
Proof.
  intros H data w r w' Hp w2.
  destruct (user_process_normalizes_valid_users_lemma data w)
    as (r0 & w0 & Hp0 & Hst).
  rewrite Hp in Hp0. inversion Hp0; subst r0 w0; clear Hp0.
  assert (Hvalid : Forall (fun y => user_valid y = true)
                     (ProcessingResult.processed r)).
  { assert (Hin : Forall (fun u => user_valid u = true)
                    (filter user_valid data)).
    { apply Forall_forall. intros u Hu. apply filter_In in Hu. tauto. }
    revert Hin. induction Hst as [|u y us ys (date & ->) Hrest IH];
      intros Hin; constructor; inversion Hin; subst.
    - apply user_valid_stamped; assumption.
    - apply IH; assumption. }
  destruct (filter_all _ _ Hvalid) as (Hf1 & Hf2).
  destruct (user_process_stamps (ProcessingResult.processed r) w2)
    as (duration & w3 & ->).
  do 2 eexists. split; [reflexivity|]. unfold result_of; simpl.
  rewrite Hf1, Hf2. split; [reflexivity|].
  pose proof (stamp_all_stamped (ProcessingResult.processed r)
                (snd (Date_now w2))) as Hst2.
  clear Hf1 Hf2 Hvalid.
  revert Hst2. generalize (fst (stamp_all (ProcessingResult.processed r)
                                  (snd (Date_now w2)))).
  induction Hst as [|u y us ys (date & ->) Hrest IH]; intros zs Hzs;
    inversion Hzs as [|? z ? zs' (date' & ->) Hzs']; subst; constructor.
  - exists date'. apply stamped_stamped.
  - apply IH; assumption.
Qed.

Lemma user_process_accepts_its_output_witness :
  exists r2 (w3 : @World tickingClock),
    UserProcessor.process (H := tickingClock) [johnStamped 1] 7%Z
    = (Normal r2, w3)
    /\ ProcessingResult.errors r2 = []
    /\ Forall2 (fun y z => exists date, z = withUpdatedAt y date)
         [johnStamped 1] (ProcessingResult.processed r2).
Proof.
  apply (user_process_accepts_its_output tickingClock [john; jane] 0%Z
           (result_of [john; jane] [johnStamped 1]
              [validation_entry jane
                 (base_validation user_validation jane)] 2%Z)
           3%Z).
  vm_compute; reflexivity.
Defined.

(** X13.  [normalizeEmail] is idempotent: applied to its own result it
    changes nothing. *)
Theorem normalizeEmail_idempotent :
  forall (H : Host) (user : User.t) (w : World),
    (user1 <- BusinessRule.apply UserProcessor.normalizeEmail user ;;
     BusinessRule.apply UserProcessor.normalizeEmail user1) w
    = BusinessRule.apply UserProcessor.normalizeEmail user w.
Proof.
  intros H user w. unfold UserProcessor.normalizeEmail, bind, ret.
  cbn [BusinessRule.apply User.id User.createdAt User.updatedAt User.email
       User.name User.role].
  rewrite normalize_email_idem. reflexivity.
Qed.

(** ** [ProductProcessor] *)

Lemma sound_iff {T} `{Entity.ops T} (item : T) :
  (List.length (BaseDataProcessor.structural_errors item) =? 0)%nat
  = sound item.
Proof.
  unfold BaseDataProcessor.structural_errors, push_if, sound.
  destruct (truthy (Entity.id item)), (truthy (Entity.createdAt item)),
           (truthy (Entity.updatedAt item)); reflexivity.
Qed.

Lemma product_valid_iff `{Numbers} (product : Product.t) :
  ValidationResult.isValid (base_validation product_validation product)
  = product_valid product.
Proof.
  unfold base_validation, BaseDataProcessor.structural_errors, push_if,
    product_validation, product_valid, sound.
  cbn [Entity.id Entity.createdAt Entity.updatedAt Product.entity
       ValidationResult.isValid ValidationResult.errors].
  destruct (truthy (Product.id product)), (truthy (Product.createdAt product)),
           (truthy (Product.updatedAt product)),
           (gt_zero (Product.price product)),
           (0 <? String.length (Product.name product))%nat; reflexivity.
Qed.

Lemma product_process_normalizes `{Host} `{Numbers}
  (data : list Product.t) (w : World) :
  exists duration w',
    ProductProcessor.process data w
    = (Normal
         (result_of data
            (map normalized (filter product_valid data))
            (map (fun product =>
                    validation_entry product
                      (base_validation product_validation product))
               (filter (fun product => negb (product_valid product)) data))
            duration),
       w').
Proof.
  unfold ProductProcessor.process.
  rewrite (base_process_closed
             ProductProcessor.validator ProductProcessor.businessRules
             product_validation [withTrimmedName; withRoundedPrice]
             (fun product w => eq_refl)) by (repeat constructor).
  rewrite (filter_ext _ _ product_valid_iff).
  rewrite (filter_negb_ext _ _ data product_valid_iff).
  eexists _, _. reflexivity.
Qed.

(** X14.  [ProductProcessor.process] always returns a result.  It
    returns the valid products of the input, in order, each with its name
    trimmed and its price rounded, and every other field, [updatedAt]
    included, as it was; the other products get [VALIDATION_ERROR]
    entries, in order, and there is no other kind of entry. *)
Theorem product_process_normalizes_valid_products :
  forall (H : Host) (N : Numbers) (data : list Product.t) (w : World),
  exists r w',
    ProductProcessor.process data w = (Normal r, w')
    /\ ProcessingResult.processed r
       = map normalized (filter product_valid data)
    /\ map ProcessingError.item (ProcessingResult.errors r)
       = filter (fun product => negb (product_valid product)) data
    /\ Forall (fun e => ProcessingError.code e = "VALIDATION_ERROR"%string)
         (ProcessingResult.errors r).
Proof.
  intros H N data w.
  destruct (product_process_normalizes data w) as (duration & w' & ->).
  do 2 eexists. split; [reflexivity|]. unfold result_of; simpl.
  split; [reflexivity|]. split.
  - rewrite map_map. simpl. apply map_id.
  - apply Forall_forall. intros e He.
    apply in_map_iff in He. destruct He as (x & <- & _). reflexivity.
Qed.

(** X15.  The name is checked before it is trimmed: a valid product
    whose name is white space only is returned by
    [ProductProcessor.process] with the empty name, and that product
    fails [validate], with [Name is required]. *)
Theorem product_blank_name_passes :
  forall (H : Host) (N : Numbers) (product : Product.t) (w : World),
    product_valid product = true ->
    trim (Product.name product) = EmptyString ->
    exists r w',
      ProductProcessor.process [product] w = (Normal r, w')
      /\ ProcessingResult.processed r = [normalized product]
      /\ Product.name (normalized product) = EmptyString
      /\ exists validation,
          ProductProcessor.validate (normalized product) w'
          = (Normal validation, w')
          /\ ValidationResult.isValid validation = false
          /\ In "Name is required"%string
               (ValidationResult.errors validation).
Proof.
  intros H N product w Hv Hname.
  destruct (product_process_normalizes [product] w) as (duration & w' & ->).
  do 2 eexists. split; [reflexivity|]. unfold result_of.
  cbn [ProcessingResult.processed filter map]. rewrite Hv.
  split; [reflexivity|]. split; [exact Hname|].
  eexists. unfold ProductProcessor.validate.
  rewrite (base_validate_returns ProductProcessor.validator product_validation
             (fun product w => eq_refl)).
  split; [reflexivity|].
  assert (Hn : product_validation (normalized product)
               = ValidationResult.mk false
                   ((if gt_zero (round_cents (Product.price product))
                     then [] else ["Price must be positive"%string])
                    ++ ["Name is required"%string])).
  { unfold product_validation, normalized, withRoundedPrice, withTrimmedName.
    cbn [Product.name Product.price]. rewrite Hname. cbn [String.length Nat.ltb Nat.leb].
    rewrite andb_false_r. reflexivity. }
  unfold base_validation. rewrite Hn.
  cbn [ValidationResult.isValid ValidationResult.errors].
  split.
  - destruct (BaseDataProcessor.structural_errors (normalized product));
      [|reflexivity].
    destruct (gt_zero (round_cents (Product.price product))); reflexivity.
  - apply in_or_app; right. apply in_or_app; right. left; reflexivity.
Qed.

Lemma product_blank_name_passes_witness :
  exists r (w' : @World tickingClock),
    ProductProcessor.process (H := tickingClock) (H0 := integerAmounts)
      [blankProduct] 0%Z = (Normal r, w')
    /\ ProcessingResult.processed r = [normalized blankProduct]
    /\ Product.name (normalized blankProduct) = EmptyString
    /\ exists validation,
        ProductProcessor.validate (H := tickingClock) (H0 := integerAmounts)
          (normalized blankProduct) w' = (Normal validation, w')
        /\ ValidationResult.isValid validation = false
        /\ In "Name is required"%string (ValidationResult.errors validation).
Proof.
  apply (product_blank_name_passes tickingClock integerAmounts blankProduct
           0%Z); reflexivity.
Defined.

(** ** [ProcessorFactory.createProcessor] *)

(** X16.  For the two known classes [createProcessor] ignores the custom
    validator and rules.  For any other [type], with no validator and no
    rules given, it returns a processor whose [process] keeps, unchanged
    and in order, exactly the items whose [id], [createdAt] and
    [updatedAt] are truthy, and gives the others [VALIDATION_ERROR]
    entries with the joined [... is required] strings. *)
Theorem createProcessor_fallback :
  forall (H : Host) (N : Numbers) (T : Type) (E : Entity.ops T),
    (forall customValidator customRules,
        ProcessorFactory.createProcessor (T := T)
          ProcessorFactory.UserProcessorClass customValidator customRules
        = ProcessorFactory.OfUsers newUserProcessor
        /\ ProcessorFactory.createProcessor (T := T)
             ProcessorFactory.ProductProcessorClass customValidator customRules
           = ProcessorFactory.OfProducts newProductProcessor)
    /\ exists processor : DataProcessor.t T,
        ProcessorFactory.createProcessor ProcessorFactory.OtherFunction
          None None = ProcessorFactory.OfT processor
        /\ forall (data : list T) (w : World),
          exists r w',
            DataProcessor.process processor data w = (Normal r, w')
            /\ ProcessingResult.processed r = filter sound data
            /\ ProcessingResult.errors r
               = map (fun item =>
                        ProcessingError.mk item
                          (VStr (join ", "
                                   (BaseDataProcessor.structural_errors item)))
                          "VALIDATION_ERROR"%string)
                   (filter (fun item => negb (sound item)) data).
Proof.
  intros H N T E. split; [intros cv cr; split; reflexivity|].
  eexists. split; [reflexivity|].
  intros data w. cbn [DataProcessor.process newBaseDataProcessor
                      ProcessorFactory.orDefault].
  rewrite (base_process_closed
             (fun _ : T => ret (ValidationResult.mk true [])) []
             (fun _ => ValidationResult.mk true []) []
             (fun item w => eq_refl)) by constructor.
  do 2 eexists. split; [reflexivity|]. unfold result_of.
  cbn [ProcessingResult.processed ProcessingResult.errors].
  assert (Hs : forall item,
             ValidationResult.isValid
               (base_validation (fun _ => ValidationResult.mk true []) item)
             = sound item).
  { intros item. unfold base_validation.
    cbn [ValidationResult.isValid]. rewrite app_nil_r. apply sound_iff. }
  rewrite (filter_ext _ _ Hs), (filter_negb_ext _ _ data Hs).
  split.
  - unfold run_rules. simpl. apply map_id.
  - apply map_ext. intros item. unfold validation_entry, base_validation.
    cbn [ValidationResult.isValid ValidationResult.errors].
    rewrite app_nil_r. reflexivity.
Qed.

(** ** The validator runs once per item *)

Lemma event_forOf_state `{Host} {T : Type}
  (validator : T -> M ValidationResult.t) :
  (forall item, never_nullish (validator item)) ->
  forall data acc w,
  exists acc',
    createEventProcessor.forOf validator data acc w
    = (Normal acc', fold_left (fun w item => snd (validator item w)) data w).
Proof.
  intros Hv data. induction data as [|item rest IH]; intros acc w; simpl.
  - exists acc. reflexivity.
  - unfold bind. rewrite event_turn_cases. unfold caught.
    destruct (validator item w) as [[v|t] w1] eqn:Ev; simpl.
    + destruct (ValidationResult.isValid v); apply IH.
    + rewrite (Hv item _ _ _ Ev). apply IH.
Qed.

(** X17.  An event processor runs the validator once on each item, in
    input order, between its two readings of the clock, and does nothing
    else to the host: the state [process] leaves is the state that the
    validator's runs and the two readings leave, whether the validator
    returns or throws (other than [null] or [undefined]). *)
Theorem event_process_runs_validator_once :
  forall (H : Host) (T : Type) (E : BaseEvent.ops T)
         (validator : T -> M ValidationResult.t),
    (forall item, never_nullish (validator item)) ->
    forall (data : list T) (w : World),
    exists r,
      createEventProcessor.process validator data w
      = (Normal r,
         snd (Date_now
                (fold_left (fun w item => snd (validator item w)) data
                   (snd (Date_now w))))).
Proof.
  intros H T E validator Hv data w.
  unfold createEventProcessor.process.
  rewrite (bind_Normal _ _ _ _ _ (now_Normal w)).
  destruct (event_forOf_state validator Hv data ([], []) (snd (Date_now w)))
    as (acc & Eloop).
  rewrite (bind_Normal _ _ _ _ _ Eloop).
  rewrite (bind_Normal _ _ _ _ _ (now_Normal _)).
  eexists. reflexivity.
Qed.

Lemma event_process_runs_validator_once_witness :
  exists r,
    createEventProcessor.process (H := tickingClock) slowValidator
      loginEvents 0%Z
    = (Normal r, 22%Z).
Proof.
  apply (event_process_runs_validator_once tickingClock userLoginEvent.t _
           slowValidator).
  intros item w t w' E. discriminate E.
Defined.

(** ** Error strings of a validator that answers valid *)

(** X18.  Both [validate] methods drop the error strings of a validator
    that answers valid: the outcome then has the structural error strings
    only, and is valid exactly when there is none. *)
Theorem validate_drops_errors_of_valid_answer :
  (forall (H : Host) (T : Type) (E : Entity.ops T)
          (validator : T -> M ValidationResult.t) (item : T) (w : World)
          customValidation w',
      validator item w = (Normal customValidation, w') ->
      ValidationResult.isValid customValidation = true ->
      BaseDataProcessor.validate validator item w
      = (Normal (ValidationResult.mk (sound item)
                   (BaseDataProcessor.structural_errors item)), w'))
  /\
  (forall (H : Host) (T : Type) (E : BaseEvent.ops T)
          (validator : T -> M ValidationResult.t) (item : T) (w : World)
          customValidation w',
      validator item w = (Normal customValidation, w') ->
      ValidationResult.isValid customValidation = true ->
      createEventProcessor.validate validator item w
      = (Normal (ValidationResult.mk (event_sound item)
                   (createEventProcessor.structural_errors item)), w')).
Proof.
  split; intros H T E validator item w cv w' Ev Eb.
  - rewrite base_validate_cases, Ev, Eb. cbv zeta.
    rewrite app_nil_r, sound_iff. reflexivity.
  - rewrite event_validate_cases, Ev, Eb. cbv zeta.
    rewrite app_nil_r. f_equal. f_equal.
    unfold createEventProcessor.structural_errors, push_if, event_sound.
    destruct (truthy (BaseEvent.id item)),
             (truthy (BaseEvent.eventType item)); reflexivity.
Qed.

Lemma validate_drops_errors_of_valid_answer_witness :
  BaseDataProcessor.validate (H := tickingClock)
    (fun _ => ret (ValidationResult.mk true ["ignored"%string]))
    userWithEmptyId 0%Z
  = (Normal (ValidationResult.mk (sound userWithEmptyId)
               (BaseDataProcessor.structural_errors userWithEmptyId)), 0%Z).
Proof.
  apply (proj1 validate_drops_errors_of_valid_answer tickingClock User.t _
           (fun _ => ret (ValidationResult.mk true ["ignored"%string]))
           userWithEmptyId 0%Z
           (ValidationResult.mk true ["ignored"%string]) 0%Z);
    reflexivity.
Defined.
